(** * mpv build helpers: the waf bootstrapper and the custom dependency checks

    A shallow embedding of [bootstrap.py] and of [waftools/checks/custom.py],
    with the properties their specification states about them.

    Python strings are [string]s, downloaded bytes are [list Byte.byte],
    file modes are [Z] with the bit operations written out, dictionaries are
    [gmap]s.  Everything outside the two scripts (the network, the [waf]
    executable, the compiler, pkg-config, the shell) is a field of a host
    record; the scripts are functions of that record. *)

From Stdlib Require Import ZArith Ascii String List Bool Lia.
From stdpp Require Import base option gmap strings list fin_maps.

Local Open Scope string_scope.

(* ===================================================================== *)
(** ** Python string helpers shared by both scripts *)
(* ===================================================================== *)

Module PyStr.

(** [s.split(sep)] for a one-character separator: never the empty list,
    empty pieces are kept. *)
Fixpoint split (sep : ascii) (s : string) : list string :=
  match s with
  | EmptyString => [EmptyString]
  | String c rest =>
      if Ascii.eqb c sep then EmptyString :: split sep rest
      else match split sep rest with
           | w :: ws => String c w :: ws
           | [] => [String c EmptyString]
           end
  end.

(** [sep.join(l)] *)
Fixpoint join (sep : string) (l : list string) : string :=
  match l with
  | [] => ""
  | [x] => x
  | x :: rest => x ++ sep ++ join sep rest
  end.

(** The characters [str.isspace] accepts among the code points below 256,
    a [string] holding one character per code point: tab to carriage
    return (9-13), the separators 28-31, the space (32), NEL (133) and the
    no-break space (160). *)
Definition isspace (c : ascii) : bool :=
  let n := nat_of_ascii c in
  (Nat.leb 9 n && Nat.leb n 13) || (Nat.leb 28 n && Nat.leb n 32)
  || Nat.eqb n 133 || Nat.eqb n 160.

(** [s.rstrip()]: drop the trailing white space. *)
Fixpoint rstrip (s : string) : string :=
  match s with
  | EmptyString => EmptyString
  | String c rest =>
      match rstrip rest with
      | EmptyString => if isspace c then EmptyString else String c EmptyString
      | r => String c r
      end
  end.

(** Truthiness of a string: only the empty string is false. *)
Definition truthy (s : string) : bool :=
  match s with EmptyString => false | _ => true end.

End PyStr.

(* ===================================================================== *)
(** ** bootstrap.py *)
(* ===================================================================== *)

Module Bootstrap.

Definition WAFRELEASE : string := "waf-1.8.1".
Definition WAFURL : string := "http://ftp.waf.io/pub/release/" ++ WAFRELEASE.
Definition SHA256HASH : string :=
  "ec658116ba0b96629d91fde0b32321849e866e0819f1e835c4c2c7f7ffe1a21d".

(** [stat] constants. *)
Definition S_IXUSR : Z := 64.       (* 0o100 *)
Definition S_PERMS : Z := 4095.     (* 0o7777, the bits chmod(2) takes *)

(** A regular file: its bytes and its [st_mode]. *)
Record file := File { f_data : list Byte.byte; f_mode : Z }.

(** The current directory, by file name.  An entry that cannot be run
    (a directory, a file without the execute bit) is one for which
    [check_output] of the host below raises. *)
Abbreviation filesystem := (gmap string file).

(** What the script does to the world, in order. *)
Inductive event :=
| EvExec (argv : list string)
| EvHttpGet (url : string)
| EvWrite (path : string) (data : list Byte.byte)
| EvChmod (path : string) (mode : Z)
| EvPrint (line : string).

(** Events that change the directory. *)
Definition modifies_fs (e : event) : bool :=
  match e with
  | EvWrite _ _ | EvChmod _ _ => true
  | _ => false
  end.

(** Events that go to the network. *)
Definition is_request (e : event) : bool :=
  match e with
  | EvHttpGet _ => true
  | _ => false
  end.

(** The world around the script.  A [None] is the call raising. *)
Record host := Host {
  (** [subprocess.check_output(argv).decode()] on the file run *)
  check_output : file -> list string -> option string;
  (** the exception it raises where it gives [None]: [PermissionError]
      for a file without the execute bit, [OSError] for one the system
      cannot run, [CalledProcessError] for a non-zero exit status,
      [UnicodeDecodeError] for output that [decode] rejects *)
  check_output_error : file -> list string -> string;
  (** [urlopen(url).read()] *)
  urlopen_read : string -> option (list Byte.byte);
  (** [hashlib.sha256(data).hexdigest()] *)
  sha256_hexdigest : list Byte.byte -> string;
  (** [st_mode] of a file that [open(..., "wb")] creates *)
  creat_mode : Z
}.

(** How a statement ends: it falls through with a value, [sys.exit(n)]
    unwinds the script, or an exception nobody catches does. *)
Inductive completion (A : Type) :=
| Normal (a : A)
| SysExit (status : Z)
| Uncaught (exc : string).
Arguments Normal {A} a.
Arguments SysExit {A} status.
Arguments Uncaught {A} exc.

(** State of a run: the directory and the events so far (oldest first). *)
Record world := World { w_fs : filesystem; w_log : list event }.

Definition M (A : Type) : Type := world -> completion A * world.

Definition ret {A} (a : A) : M A := fun w => (Normal a, w).

Definition bind {A B} (m : M A) (k : A -> M B) : M B :=
  fun w =>
    match m w with
    | (Normal a, w') => k a w'
    | (SysExit n, w') => (SysExit n, w')
    | (Uncaught e, w') => (Uncaught e, w')
    end.

Notation "x <- m ;; k" := (bind m (fun x => k))
  (at level 100, m at next level, right associativity).
Notation "m ;;; k" := (bind m (fun _ => k))
  (at level 100, right associativity).

Definition emit (e : event) : M unit :=
  fun w => (Normal tt, World (w_fs w) (w_log w ++ [e])).

Definition sys_exit {A} (n : Z) : M A := fun w => (SysExit n, w).
Definition raise {A} (e : string) : M A := fun w => (Uncaught e, w).

Definition print (line : string) : M unit := emit (EvPrint line).

(** [l[i]] *)
Definition index {A} (l : list A) (i : nat) : M A :=
  match nth_error l i with
  | Some x => ret x
  | None => raise "IndexError"
  end.

Section Script.
Variable h : host.

(** [os.path.exists(path)] *)
Definition path_exists (path : string) : M bool :=
  fun w => (Normal (bool_decide (is_Some (w_fs w !! path))), w).

(** [subprocess.check_output(['./' + name, ...]).decode()]: the host
    says what the run prints or which exception it ends in.  What the
    program run does to the directory is not followed. *)
Definition run_check_output (name : string) (argv : list string) : M string :=
  fun w =>
    let w' := World (w_fs w) (w_log w ++ [EvExec argv]) in
    match w_fs w !! name with
    | Some f =>
        match check_output h f argv with
        | Some out => (Normal out, w')
        | None => (Uncaught (check_output_error h f argv), w')
        end
    | None => (Uncaught "FileNotFoundError", w')
    end.

(** [urlopen(url).read()] *)
Definition http_get (url : string) : M (list Byte.byte) :=
  fun w =>
    let w' := World (w_fs w) (w_log w ++ [EvHttpGet url]) in
    match urlopen_read h url with
    | Some body => (Normal body, w')
    | None => (Uncaught "URLError", w')
    end.

(** [with open(path, "wb") as f: f.write(data)]: an existing file is
    truncated and keeps its mode, a new one gets the creation mode.  The
    operating system is taken to carry the write out: a run in which
    [open] or [write] raises has no path here. *)
Definition write_file (path : string) (data : list Byte.byte) : M unit :=
  fun w =>
    let mode := match w_fs w !! path with
                | Some f => f_mode f
                | None => creat_mode h
                end in
    (Normal tt,
     World (<[path := File data mode]> (w_fs w))
           (w_log w ++ [EvWrite path data])).

(** [os.stat(path).st_mode] *)
Definition stat_mode (path : string) : M Z :=
  fun w =>
    match w_fs w !! path with
    | Some f => (Normal (f_mode f), w)
    | None => (Uncaught "FileNotFoundError", w)
    end.

(** [os.chmod(path, mode)]: the permission bits are replaced by those
    of [mode], the file type bits stay.  The operating system is taken to
    allow it for a file that is there. *)
Definition chmod (path : string) (mode : Z) : M unit :=
  fun w =>
    match w_fs w !! path with
    | Some f =>
        let m' := Z.lor (Z.ldiff (f_mode f) S_PERMS) (Z.land mode S_PERMS) in
        (Normal tt,
         World (<[path := File (f_data f) m']> (w_fs w))
               (w_log w ++ [EvChmod path mode]))
    | None => (Uncaught "FileNotFoundError", w)
    end.

(** Lines 12-16: skip the download when a [waf] of the pinned version
    is already there. *)
Definition skip_if_present : M unit :=
  present <- path_exists "waf" ;;
  if present then
    wafver <- run_check_output "waf" ["./waf"; "--version"] ;;
    pinned <- index (PyStr.split "-" WAFRELEASE) 1 ;;
    found <- index (PyStr.split " " wafver) 1 ;;
    if String.eqb pinned found then
      print "Found 'waf', skipping download." ;;;
      sys_exit 0
    else ret tt
  else ret tt.

(** Lines 23-38: download, verify, install. *)
Definition download_and_verify : M unit :=
  print ("Downloading " ++ WAFURL ++ "...") ;;;
  waf <- http_get WAFURL ;;
  if String.eqb SHA256HASH (sha256_hexdigest h waf) then
    write_file "waf" waf ;;;
    mode <- stat_mode "waf" ;;
    chmod "waf" (Z.lor mode S_IXUSR) ;;;
    print "Checksum verified."
  else
    print "The checksum of the downloaded file does not match!" ;;;
    print (" - got:      " ++ sha256_hexdigest h waf) ;;;
    print (" - expected: " ++ SHA256HASH) ;;;
    print "Please download and verify the file manually." ;;;
    sys_exit 1.

(** The module body. *)
Definition main : M unit :=
  skip_if_present ;;; download_and_verify.

(** Exit status of the interpreter for a completed module body. *)
Definition exit_status (c : completion unit) : Z :=
  match c with
  | Normal _ => 0
  | SysExit n => n
  | Uncaught _ => 1
  end.

(** A run of the script in a directory. *)
Definition run (fs : filesystem) : completion unit * world :=
  main (World fs []).

End Script.

End Bootstrap.

(* ===================================================================== *)
(** ** waftools/checks/custom.py *)
(* ===================================================================== *)

Module Custom.

(** The build context, as far as the checks of this file read and write
    it: [ctx.env], [ctx.options], the satisfied dependencies, the
    preprocessor defines and the optional messages. *)
Record build_ctx := Ctx {
  env_DEST_OS : string;
  env_LIB_LIBDL : list string;
  options_LUA_VER : option string;
  srcnode_abspath : string;
  satisfied_deps : gset string;
  defines : gmap string string;
  optional_messages : list (string * string)
}.

(** The keyword arguments a compile check is given.  [cflags] is [None]
    when the keyword is not given: [check_pthreads] gives it to one probe
    (possibly as the empty string) and not to the other.  The other
    keywords are never given an empty value in this file, and for them the
    empty value stands for a keyword that is not given. *)
Record cc_request := CcRequest {
  fragment : string;
  cflags : option string;
  lib : string;
  use : list string;
  execute : bool;
  header_name : string;
  cc_defines : list string;
  compile_filename : string;
  framework_name : list string;
  includes : string;
  linkflags : string
}.

Definition with_lib (l : string) (rq : cc_request) : cc_request :=
  {| fragment := fragment rq; cflags := cflags rq; lib := l; use := use rq;
     execute := execute rq; header_name := header_name rq;
     cc_defines := cc_defines rq; compile_filename := compile_filename rq;
     framework_name := framework_name rq; includes := includes rq;
     linkflags := linkflags rq |}.

(** What a probe asks of the host, in order. *)
Inductive event :=
| EvCompile (rq : cc_request)
| EvPkgConfig (query : string) (uselib_store : string).

(** The host that is probed and the parts of the build framework the
    checks call.  The host does not change while the configuration runs:
    whether a request compiles, or a query resolves, is a function of the
    request.  What the framework stores in the context after a step is
    left open ([cc_record], [pkg_record]). *)
Record host := Host {
  compiles : cc_request -> bool;
  pkg_resolves : string -> bool;
  cc_record : cc_request -> string -> bool -> build_ctx -> build_ctx;
  pkg_record : string -> string -> string -> bool -> build_ctx -> build_ctx;
  (** [load_fragment(name)]: the text of a file under [waftools/fragments] *)
  load_fragment : string -> string;
  (** [template.format] with named fields *)
  str_format : string -> list (string * string) -> string;
  (** decoded standard output of [sh -c '. /etc/oss.conf && echo $OSSLIBDIR'],
      a text of code points below 256 *)
  oss_conf_stdout : string;
  (** [DependencyInflector(identifier).define_key()] *)
  define_key : string -> string
}.

(** State threaded through a probe: the context and the requests made. *)
Record state := State { st_ctx : build_ctx; st_log : list event }.

Definition M (A : Type) : Type := state -> A * state.

Definition ret {A} (a : A) : M A := fun s => (a, s).
Definition bind {A B} (m : M A) (k : A -> M B) : M B :=
  fun s => let (a, s') := m s in k a s'.

Notation "x <- m ;; k" := (bind m (fun x => k))
  (at level 100, m at next level, right associativity).
Notation "m ;;; k" := (bind m (fun _ => k))
  (at level 100, right associativity).

Definition get_ctx : M build_ctx := fun s => (st_ctx s, s).
Definition modify_ctx (f : build_ctx -> build_ctx) : M unit :=
  fun s => (tt, State (f (st_ctx s)) (st_log s)).
Definition emit (e : event) : M unit :=
  fun s => (tt, State (st_ctx s) (st_log s ++ [e])).

(** A probe built by the primitives: called with the context, the
    dependency identifier and, from [check_libs], the keyword [lib]. *)
Definition probe : Type := string -> option string -> M bool.

(** A check of this file: [check(ctx, dependency_identifier)]. *)
Definition check : Type := string -> M bool.

(** The candidates a first-success scan reaches: all up to and including
    the first one that succeeds. *)
Fixpoint tried {A} (ok : A -> bool) (l : list A) : list A :=
  match l with
  | [] => []
  | x :: rest => x :: (if ok x then [] else tried ok rest)
  end.

(** [for x in l: if f(x): return True] followed by [return False]. *)
Fixpoint first_success {A} (f : A -> M bool) (l : list A) : M bool :=
  match l with
  | [] => ret false
  | x :: rest =>
      found <- f x ;;
      if found then ret true else first_success f rest
  end.

(** *** Context methods *)

(** Modelled from the spec: [ctx.dependency_satisfied], which is not in
    the sources at hand; a dependency is "already known to be satisfied"
    when an earlier probe recorded it. *)
Definition dependency_satisfied (name : string) : M bool :=
  c <- get_ctx ;; ret (bool_decide (name ∈ satisfied_deps c)).

(** Modelled from the spec: [ctx.mark_satisfied], which is not in the
    sources at hand; it "records the matched version tag as an additional
    discovered fact". *)
Definition mark_satisfied (name : string) : M unit :=
  modify_ctx (fun c =>
    Ctx (env_DEST_OS c) (env_LIB_LIBDL c) (options_LUA_VER c)
        (srcnode_abspath c) ({[name]} ∪ satisfied_deps c) (defines c)
        (optional_messages c)).

(** Modelled from the spec: [ctx.add_optional_message], which is not in
    the sources at hand; the "optional diagnostic message" of a probe. *)
Definition add_optional_message (dep msg : string) : M unit :=
  modify_ctx (fun c =>
    Ctx (env_DEST_OS c) (env_LIB_LIBDL c) (options_LUA_VER c)
        (srcnode_abspath c) (satisfied_deps c) (defines c)
        (optional_messages c ++ [(dep, msg)])).

(** [ctx.undefine(key)] of the build framework: the define is cleared. *)
Definition undefine (key : string) : M unit :=
  modify_ctx (fun c =>
    Ctx (env_DEST_OS c) (env_LIB_LIBDL c) (options_LUA_VER c)
        (srcnode_abspath c) (satisfied_deps c) (delete key (defines c))
        (optional_messages c)).

(** [os.path.join(a, b)] on a POSIX host. *)
Definition path_join (a b : string) : string :=
  match b with
  | String "/" _ => b
  | _ =>
      match a with
      | EmptyString => b
      | _ => if String.eqb (substring (String.length a - 1) 1 a) "/"
             then a ++ b else a ++ "/" ++ b
      end
  end.

(** The double quote of the C string literals in the OSS defines. *)
Definition dquote : string := String (ascii_of_nat 34) EmptyString.

(** The dictionary of [check_pthreads]. *)
Definition platform_cflags_table : gmap string string :=
  list_to_map
    [("linux",   "-D_REENTRANT");
     ("freebsd", "-D_THREAD_SAFE");
     ("netbsd",  "-D_THREAD_SAFE");
     ("openbsd", "-D_THREAD_SAFE");
     ("win32",   "-DPTW32_STATIC_LIB")].

(** The list of [check_lua]: version tag and pkg-config query. *)
Definition lua_versions : list (string * string) :=
  [("51",     "lua >= 5.1.0 lua < 5.2.0");
   ("51deb",  "lua5.1 >= 5.1.0");
   ("luajit", "luajit >= 2.0.0");
   ("52",     "lua >= 5.2.0");
   ("52deb",  "lua5.2 >= 5.2.0")].

Section Checks.
Variable h : host.

(** *** The probe primitives of [waftools.checks.generic] *)

(** Modelled from the spec: [check_cc] of waftools/checks/generic.py,
    which is not in the sources at hand.  "Attempt to compile (and
    optionally execute) a source fragment with given
    flags/defines/includes/libraries; returns a callable probe."  The
    library a caller passes is added to the request. *)
Definition check_cc (kw : cc_request) : probe :=
  fun dep lib_kw =>
    let rq := match lib_kw with Some l => with_lib l kw | None => kw end in
    emit (EvCompile rq) ;;;
    let ok := compiles h rq in
    modify_ctx (cc_record h rq dep ok) ;;;
    ret ok.

(** Modelled from the spec: [check_pkg_config] of
    waftools/checks/generic.py, which is not in the sources at hand.
    "Query the system package database for a version-constrained
    package; returns a callable probe." *)
Definition check_pkg_config (query uselib_store : string) : probe :=
  fun dep _ =>
    emit (EvPkgConfig query uselib_store) ;;;
    let ok := pkg_resolves h query in
    modify_ctx (pkg_record h query uselib_store dep ok) ;;;
    ret ok.

(** Modelled from the spec: [check_libs] of waftools/checks/generic.py,
    which is not in the sources at hand.  "Try linking against each
    candidate library name in order until [inner_probe] succeeds;
    short-circuits on first success." *)
Definition check_libs (libs : list string) (inner : probe) : probe :=
  fun dep _ => first_success (fun l => inner dep (Some l)) libs.

(** Modelled from the spec: [compose_checks] of
    waftools/checks/generic.py, which is not in the sources at hand.
    "Logical AND of two probes: both must succeed, in order,
    short-circuiting on first failure." *)
Definition compose_checks (a b : probe) : probe :=
  fun dep _ =>
    ok <- a dep None ;;
    if ok then b dep None else ret false.

(** *** The checks *)

Definition pthreads_program : string := load_fragment h "pthreads.c".

Definition check_pthreads : check :=
  fun dependency_identifier =>
    ctx <- get_ctx ;;
    let platform_cflags :=
      default "" (platform_cflags_table !! env_DEST_OS ctx) in
    let libs := ["pthreadGC2"; "pthread"] in
    let checkfn :=
      check_cc {| fragment := pthreads_program;
                  cflags := Some platform_cflags;
                  lib := ""; use := []; execute := false;
                  header_name := ""; cc_defines := [];
                  compile_filename := ""; framework_name := [];
                  includes := ""; linkflags := "" |} in
    let checkfn_nocflags :=
      check_cc {| fragment := pthreads_program; cflags := None;
                  lib := ""; use := []; execute := false;
                  header_name := ""; cc_defines := [];
                  compile_filename := ""; framework_name := [];
                  includes := ""; linkflags := "" |} in
    first_success
      (fun fn => check_libs libs fn dependency_identifier None)
      [checkfn; checkfn_nocflags].

Definition check_iconv : check :=
  fun dependency_identifier =>
    ctx <- get_ctx ;;
    let iconv_program := load_fragment h "iconv.c" in
    let libdliconv := PyStr.join " " (env_LIB_LIBDL ctx ++ ["iconv"]) in
    let libs := ["iconv"; libdliconv] in
    let checkfn :=
      check_cc {| fragment := iconv_program; cflags := None;
                  lib := ""; use := []; execute := false;
                  header_name := ""; cc_defines := [];
                  compile_filename := ""; framework_name := [];
                  includes := ""; linkflags := "" |} in
    check_libs libs checkfn dependency_identifier None.

(** The body of the [for] loop of [check_lua] for one candidate. *)
Definition lua_candidate (fragment : string) (quvi_lib_storage : list string)
    (dependency_identifier : string) (lv : string * string) : M bool :=
  let (lua_version, pkgconfig_query) := lv in
  found <- compose_checks
             (check_pkg_config pkgconfig_query lua_version)
             (check_cc {| fragment := fragment; cflags := None;
                          lib := ""; use := lua_version :: quvi_lib_storage;
                          execute := true;
                          header_name := ""; cc_defines := [];
                          compile_filename := ""; framework_name := [];
                          includes := ""; linkflags := "" |})
             dependency_identifier None ;;
  if found then
    mark_satisfied lua_version ;;;
    add_optional_message dependency_identifier
      ("version found: " ++ lua_version) ;;;
    ret true
  else ret false.

(** Lines 35-46: the companion library already found, if any. *)
Definition quvi_variant : M (list string * string * string) :=
  q4 <- dependency_satisfied "libquvi4" ;;
  if q4 then
    ret (["libquvi4"], "#include <quvi/quvi.h>",
         load_fragment h "lua_libquvi4.c")
  else
    q9 <- dependency_satisfied "libquvi9" ;;
    if q9 then
      ret (["libquvi9"], "#include <quvi.h>",
           load_fragment h "lua_libquvi9.c")
    else ret ([], "", "").

(** Lines 61-63: the candidates left by the option. *)
Definition restrict_versions (lua_ver : option string)
    (versions : list (string * string)) : list (string * string) :=
  match lua_ver with
  | Some v =>
      if PyStr.truthy v
      then List.filter (fun lv => String.eqb (fst lv) v) versions
      else versions
  | None => versions
  end.

Definition check_lua : check :=
  fun dependency_identifier =>
    variant <- quvi_variant ;;
    let '(quvi_lib_storage, additional_lua_test_header,
          additional_lua_test_code) := variant in
    let fragment :=
      str_format h (load_fragment h "lua.c")
        [("additional_lua_test_header", additional_lua_test_header);
         ("additional_lua_test_code", additional_lua_test_code)] in
    ctx <- get_ctx ;;
    let versions := restrict_versions (options_LUA_VER ctx) lua_versions in
    first_success
      (lua_candidate fragment quvi_lib_storage dependency_identifier)
      versions.

(** [__get_osslibdir] *)
Definition get_osslibdir : string := PyStr.rstrip (oss_conf_stdout h).

Definition check_oss_4front : check :=
  fun dependency_identifier =>
    let oss_libdir := get_osslibdir in
    if negb (PyStr.truthy oss_libdir) then
      let defkey := define_key h dependency_identifier in
      undefine defkey ;;;
      ret false
    else
      let soundcard_h := path_join oss_libdir "include/sys/soundcard.h" in
      let include_dir := path_join oss_libdir "include" in
      let fn :=
        check_cc {| fragment := load_fragment h "oss_audio.c";
                    cflags := Some ("-I" ++ include_dir);
                    lib := ""; use := []; execute := false;
                    header_name := soundcard_h;
                    cc_defines :=
                      ["PATH_DEV_DSP=" ++ dquote ++ "/dev/dsp" ++ dquote;
                       "PATH_DEV_MIXER=" ++ dquote ++ "/dev/mixer" ++ dquote];
                    compile_filename := ""; framework_name := [];
                    includes := ""; linkflags := "" |} in
      fn dependency_identifier None.

Definition check_cocoa : check :=
  fun dependency_identifier =>
    ctx <- get_ctx ;;
    let fn :=
      check_cc {| fragment := load_fragment h "cocoa.m"; cflags := None;
                  lib := ""; use := []; execute := false;
                  header_name := ""; cc_defines := [];
                  compile_filename := "test.m";
                  framework_name := ["Cocoa"; "IOKit"; "OpenGL"];
                  includes := srcnode_abspath ctx;
                  linkflags := "-fobjc-arc" |} in
    fn dependency_identifier None.

End Checks.

(** *** Vocabulary of the statements about the checks *)

(** A step that asks the host one fixed question per candidate: its
    answer is [ok x] and it appends [ev x] to the log. *)
Definition asks {A} (f : A -> M bool) (ok : A -> bool)
    (ev : A -> list event) : Prop :=
  forall x s, (f x s).1 = ok x /\ st_log (f x s).2 = (st_log s ++ ev x)%list.

(** The request of a compile check given a fragment, flags or none, and
    one library. *)
Definition fragment_request (frag : string) (flags : option string)
    (l : string) : cc_request :=
  {| fragment := frag; cflags := flags; lib := l; use := [];
     execute := false; header_name := ""; cc_defines := [];
     compile_filename := ""; framework_name := []; includes := "";
     linkflags := "" |}.


(** The version tag an event belongs to, for the events of the Lua
    probe. *)
Definition event_tag (e : event) : option string :=
  match e with
  | EvPkgConfig _ store => Some store
  | EvCompile rq => head (use rq)
  end.

Section Reference.
Variable h : host.

(** The flags/library combinations of the pthreads probe on an OS whose
    define is [d]: with the define first, then without flags, and for each
    the libraries in the order [pthreadGC2], [pthread]. *)
Definition pthreads_combinations (d : string)
    : list (option string * string) :=
  [(Some d, "pthreadGC2"); (Some d, "pthread");
   (None, "pthreadGC2"); (None, "pthread")].

Definition pthreads_request (c : option string * string) : cc_request :=
  fragment_request (pthreads_program h) c.1 c.2.

(** The compile request of the Lua probe for a version tag, in the
    context the probe starts from. *)
Definition lua_request (s : state) (tag : string) : cc_request :=
  let '(quvi_lib_storage, header, code) := (quvi_variant h s).1 in
  {| fragment :=
       str_format h (load_fragment h "lua.c")
         [("additional_lua_test_header", header);
          ("additional_lua_test_code", code)];
     cflags := None; lib := ""; use := tag :: quvi_lib_storage;
     execute := true; header_name := ""; cc_defines := [];
     compile_filename := ""; framework_name := []; includes := "";
     linkflags := "" |}.

(** A Lua candidate matches when its query resolves and the fragment
    compiles and runs against it. *)
Definition lua_matches (s : state) (lv : string * string) : bool :=
  pkg_resolves h lv.2 && compiles h (lua_request s lv.1).

(** What trying a Lua candidate asks of the host. *)
Definition lua_events (s : state) (lv : string * string) : list event :=
  EvPkgConfig lv.2 lv.1
  :: (if pkg_resolves h lv.2 then [EvCompile (lua_request s lv.1)] else []).

End Reference.

End Custom.

(* ===================================================================== *)
(** ** Concrete hosts and directories used to exercise the statements *)
(* ===================================================================== *)

Module Samples.
Import Bootstrap.

Definition good_payload : list Byte.byte := [Byte.x23; Byte.x21; Byte.x0a].
Definition bad_digest : string :=
  "0000000000000000000000000000000000000000000000000000000000000000".

(** A mirror that serves [good_payload]; only that payload has the pinned
    digest.  An installed [waf] answers with the version its first byte
    stands for. *)
Definition mirror (body : list Byte.byte) : host :=
  {| check_output := fun f _ =>
       match f_data f with
       | Byte.x31 :: _ => Some "waf 1.8.1 (abcdef)"
       | _ => Some "waf 1.7.16 (012345)"
       end;
     check_output_error := fun _ _ => "CalledProcessError";
     urlopen_read := fun _ => Some body;
     sha256_hexdigest := fun data =>
       match data with
       | [Byte.x23; Byte.x21; Byte.x0a] => SHA256HASH
       | _ => bad_digest
       end;
     creat_mode := 33188 |}.

(** A directory with an old [waf], mode 0o100644. *)
Definition stale_dir : gmap string file :=
  {[ "waf" := File [Byte.x30] 33188 ]}.

(** A directory with the pinned [waf], mode 0o100755. *)
Definition fresh_dir : gmap string file :=
  {[ "waf" := File [Byte.x31] 33261 ]}.

(** A Debian-like host: only [-lpthread] links, the Debian names of Lua
    5.1 and 5.2 resolve but only 5.2 runs the fragment, and
    [/etc/oss.conf] sets no library directory.  The framework keeps a
    define per dependency. *)
Definition debian : Custom.host :=
  {| Custom.compiles := fun rq =>
       String.eqb (Custom.lib rq) "pthread"
       || existsb (String.eqb "52deb") (Custom.use rq);
     Custom.pkg_resolves := fun q =>
       String.eqb q "lua5.1 >= 5.1.0" || String.eqb q "lua5.2 >= 5.2.0";
     Custom.cc_record := fun _ dep ok c =>
       Custom.Ctx (Custom.env_DEST_OS c) (Custom.env_LIB_LIBDL c)
         (Custom.options_LUA_VER c) (Custom.srcnode_abspath c)
         (Custom.satisfied_deps c)
         (if ok then <[("HAVE_" ++ dep)%string := "1"]> (Custom.defines c)
          else delete ("HAVE_" ++ dep)%string (Custom.defines c))
         (Custom.optional_messages c);
     Custom.pkg_record := fun _ _ _ _ c => c;
     Custom.load_fragment := fun name => name;
     Custom.str_format := fun template fields =>
       (template ++ PyStr.join "" (map snd fields))%string;
     Custom.oss_conf_stdout := String (ascii_of_nat 10) EmptyString;
     Custom.define_key := fun dep => ("HAVE_" ++ dep)%string |}.

(** A context in the middle of a configuration, for a given target OS
    and Lua option. *)
Definition some_ctx (os : string) (lua_ver : option string)
    : Custom.build_ctx :=
  Custom.Ctx os ["dl"] lua_ver "/src/mpv" {[ "libdl" ]}
    {[ "HAVE_oss-audio" := "1"; "HAVE_libdl" := "1" ]} [].

Definition some_state (os : string) (lua_ver : option string)
    : Custom.state :=
  Custom.State (some_ctx os lua_ver) [].

(** A mirror that serves [good_payload], on a machine where every [waf]
    in the directory reports the pinned version. *)
Definition release_mirror : Bootstrap.host :=
  {| check_output := fun _ _ => Some "waf 1.8.1 (abcdef)";
     check_output_error := fun _ _ => "CalledProcessError";
     urlopen_read := fun _ => Some good_payload;
     sha256_hexdigest := fun data =>
       match data with
       | [Byte.x23; Byte.x21; Byte.x0a] => SHA256HASH
       | _ => bad_digest
       end;
     creat_mode := 33188 |}.

(** A machine without network on which [./waf] cannot be run. *)
Definition stranded : Bootstrap.host :=
  {| check_output := fun _ _ => None;
     check_output_error := fun f _ =>
       if Z.testbit (f_mode f) 6 then "OSError" else "PermissionError";
     urlopen_read := fun _ => None;
     sha256_hexdigest := fun _ => bad_digest;
     creat_mode := 33188 |}.

(** A machine whose [waf] prints its name and nothing else. *)
Definition terse : Bootstrap.host :=
  {| check_output := fun _ _ => Some "waf";
     check_output_error := fun _ _ => "CalledProcessError";
     urlopen_read := fun _ => Some good_payload;
     sha256_hexdigest := fun _ => bad_digest;
     creat_mode := 33188 |}.

(** The Debian host with 4Front OSS installed under [/usr/lib/oss]. *)
Definition debian_oss : Custom.host :=
  {| Custom.compiles := fun rq =>
       String.eqb (Custom.header_name rq)
         "/usr/lib/oss/include/sys/soundcard.h";
     Custom.pkg_resolves := Custom.pkg_resolves debian;
     Custom.cc_record := Custom.cc_record debian;
     Custom.pkg_record := Custom.pkg_record debian;
     Custom.load_fragment := Custom.load_fragment debian;
     Custom.str_format := Custom.str_format debian;
     Custom.oss_conf_stdout :=
       ("/usr/lib/oss" ++ String (ascii_of_nat 10) EmptyString)%string;
     Custom.define_key := Custom.define_key debian |}.

(** A context with no dynamic-loading library recorded and both quvi
    variants satisfied. *)
Definition bare_state : Custom.state :=
  Custom.State
    (Custom.Ctx "darwin" [] None "/src/mpv" {[ "libquvi4"; "libquvi9" ]} ∅ [])
    [].


(** Equality of byte strings. *)
Definition bytes_eqb (a b : list Byte.byte) : bool :=
  Nat.eqb (length a) (length b)
  && forallb (fun xy => Byte.eqb (fst xy) (snd xy)) (combine a b).

(** A release that is a shell script printing its version. *)
Definition script_payload : list Byte.byte :=
  list_byte_of_string
    ("#!/bin/sh" ++ String (ascii_of_nat 10)
       ("echo 'waf 1.8.1 (abcdef)'" ++ String (ascii_of_nat 10) EmptyString)).

(** A mirror serving [script_payload] to a machine that runs a file only
    if its owner-execute bit is set, and gets the script's line from it. *)
Definition honest_mirror : Bootstrap.host :=
  {| check_output := fun f _ =>
       if Z.testbit (f_mode f) 6 && bytes_eqb (f_data f) script_payload
       then Some ("waf 1.8.1 (abcdef)" ++ String (ascii_of_nat 10) EmptyString)
       else None;
     check_output_error := fun f _ =>
       if Z.testbit (f_mode f) 6 then "OSError" else "PermissionError";
     urlopen_read := fun _ => Some script_payload;
     sha256_hexdigest := fun data =>
       if bytes_eqb data script_payload then SHA256HASH else bad_digest;
     creat_mode := 33188 |}.

End Samples.

(* ===================================================================== *)
(** ** Sample runs *)
(* ===================================================================== *)

Section SampleRuns.
Import Samples.

Example split_version_output :
  PyStr.split " " "waf 1.8.1 (abcdef)" = ["waf"; "1.8.1"; "(abcdef)"].
Proof. reflexivity. Qed.

Example split_keeps_empty_pieces :
  PyStr.split " " "a  b " = ["a"; ""; "b"; ""].
Proof. reflexivity. Qed.

Example rstrip_drops_newline :
  PyStr.rstrip ("/usr/lib/oss " ++ String (ascii_of_nat 10) EmptyString)
  = "/usr/lib/oss".
Proof. reflexivity. Qed.

(** A no-break space before the newline goes with it. *)
Example rstrip_drops_no_break_space :
  PyStr.rstrip
    ("/usr/lib/oss"
     ++ String (ascii_of_nat 160) (String (ascii_of_nat 10) EmptyString))
  = "/usr/lib/oss"
  /\ PyStr.rstrip
       (String (ascii_of_nat 160) (String (ascii_of_nat 10) EmptyString))
     = EmptyString.
Proof. split; reflexivity. Qed.

Example join_libdl_iconv : PyStr.join " " (["dl"] ++ ["iconv"]) = "dl iconv".
Proof. reflexivity. Qed.

Example path_join_libdir :
  Custom.path_join "/usr/lib/oss" "include/sys/soundcard.h"
  = "/usr/lib/oss/include/sys/soundcard.h".
Proof. reflexivity. Qed.

(** An old [waf] is replaced: it is run, the release is fetched, written
    and made executable (0o100644 becomes 0o100744). *)
Example stale_waf_is_replaced :
  Bootstrap.run (mirror good_payload) stale_dir
  = (Bootstrap.Normal tt,
     Bootstrap.World
       {[ "waf" := Bootstrap.File good_payload 33252 ]}
       [Bootstrap.EvExec ["./waf"; "--version"];
        Bootstrap.EvPrint
          "Downloading http://ftp.waf.io/pub/release/waf-1.8.1...";
        Bootstrap.EvHttpGet "http://ftp.waf.io/pub/release/waf-1.8.1";
        Bootstrap.EvWrite "waf" good_payload;
        Bootstrap.EvChmod "waf" 33252;
        Bootstrap.EvPrint "Checksum verified."]).
Proof. vm_compute. reflexivity. Qed.

(** A [waf] whose output has no second word makes the script die on the
    index, before any download. *)
Example silent_waf_raises :
  Bootstrap.run
    (Bootstrap.Host (fun _ _ => Some "waf")
       (fun _ _ => "CalledProcessError") (fun _ => None)
       (fun _ => bad_digest) 33188)
    stale_dir
  = (Bootstrap.Uncaught "IndexError",
     Bootstrap.World stale_dir [Bootstrap.EvExec ["./waf"; "--version"]]).
Proof. vm_compute. reflexivity. Qed.

(** On the Debian host the unrestricted Lua probe goes down the list and
    stops at Debian's 5.2; the Debian 5.1 package resolves but does not run
    the fragment. *)
Example debian_lua_scan :
  map Custom.event_tag
    (Custom.st_log
       (Custom.check_lua debian "lua" (some_state "linux" None)).2)
  = [Some "51"; Some "51deb"; Some "51deb"; Some "luajit"; Some "52";
     Some "52deb"; Some "52deb"].
Proof. vm_compute. reflexivity. Qed.

Example debian_pthreads_scan :
  map (fun e => match e with
                | Custom.EvCompile rq => (Custom.cflags rq, Custom.lib rq)
                | Custom.EvPkgConfig q _ => (Some q, "")
                end)
    (Custom.st_log
       (Custom.check_pthreads debian "pthreads" (some_state "linux" None)).2)
  = [(Some "-D_REENTRANT", "pthreadGC2"); (Some "-D_REENTRANT", "pthread")].
Proof. vm_compute. reflexivity. Qed.

End SampleRuns.

(* ===================================================================== *)
(** ** Properties of bootstrap.py *)
(* ===================================================================== *)

Section BootstrapFacts.
Import Bootstrap.
Variable h : host.

Lemma pinned_version_component :
  nth_error (PyStr.split "-" WAFRELEASE) 1 = Some "1.8.1".
Proof. reflexivity. Qed.

(** [chmod(p, st_mode | S_IXUSR)] amounts to or-ing the bit in. *)
Lemma chmod_or_mode (m : Z) :
  Z.lor (Z.ldiff m S_PERMS) (Z.land (Z.lor m S_IXUSR) S_PERMS)
  = Z.lor m S_IXUSR.
Proof.
  apply Z.bits_inj'. intros i Hi.
  rewrite !Z.lor_spec, Z.ldiff_spec, Z.land_spec, Z.lor_spec.
  destruct (Z.testbit m i), (Z.testbit S_PERMS i) eqn:HP,
    (Z.testbit S_IXUSR i) eqn:HX; simpl; try reflexivity.
  exfalso. unfold S_IXUSR in HX. change 64%Z with (2 ^ 6)%Z in HX.
  rewrite Z.pow2_bits_eqb in HX by lia.
  apply Z.eqb_eq in HX. subst i. discriminate HP.
Qed.

Lemma testbit_S_IXUSR (i : Z) : Z.testbit S_IXUSR i = Z.eqb 6 i.
Proof.
  unfold S_IXUSR. change 64%Z with (2 ^ 6)%Z.
  apply Z.pow2_bits_eqb. lia.
Qed.

(** Unfold the monad and the primitives, nothing else. *)
Ltac run_script :=
  cbv beta iota zeta delta
    [bind ret raise print emit sys_exit index path_exists run_check_output
     http_get write_file stat_mode chmod w_fs w_log].

Lemma exists_some_true (f : file) :
  bool_decide (is_Some (Some f)) = true.
Proof. apply bool_decide_eq_true_2. eauto. Qed.

Lemma exists_none_false :
  bool_decide (is_Some (@None file)) = false.
Proof. apply bool_decide_eq_false_2. intros [x Hx]. discriminate. Qed.

(** The skip test leaves the directory alone and only runs [waf]. *)
Lemma skip_if_present_frame (w : world) :
  exists c l,
    skip_if_present h w = (c, World (w_fs w) (w_log w ++ l))
    /\ Forall (fun e => modifies_fs e = false /\ is_request e = false) l
    /\ (c = Normal tt \/ c = SysExit 0 \/ exists e, c = Uncaught e).
Proof.
  destruct w as [fs log]. unfold skip_if_present. run_script.
  rewrite pinned_version_component.
  destruct (fs !! "waf") as [f|] eqn:Hf.
  - rewrite exists_some_true. run_script. rewrite Hf. run_script.
    destruct (check_output h f ["./waf"; "--version"]) as [out|].
    + run_script.
      destruct (nth_error (PyStr.split " " out) 1) as [v|]; run_script.
      * destruct (String.eqb "1.8.1" v); run_script.
        -- exists (SysExit 0), [EvExec ["./waf"; "--version"];
                                 EvPrint "Found 'waf', skipping download."].
           rewrite <- app_assoc. repeat split; eauto; repeat constructor.
        -- exists (Normal tt), [EvExec ["./waf"; "--version"]].
           repeat split; eauto; repeat constructor.
      * exists (Uncaught "IndexError"), [EvExec ["./waf"; "--version"]].
        repeat split; eauto; repeat constructor.
    + run_script.
      exists (Uncaught (check_output_error h f ["./waf"; "--version"])),
        [EvExec ["./waf"; "--version"]].
      repeat split; eauto; repeat constructor.
  - rewrite exists_none_false. run_script.
    exists (Normal tt), []. rewrite app_nil_r. repeat split; auto.
Qed.

(** The download step on a payload that has the pinned digest. *)
Lemma download_verified (w : world) (payload : list Byte.byte) :
  urlopen_read h WAFURL = Some payload ->
  sha256_hexdigest h payload = SHA256HASH ->
  download_and_verify h w =
    (Normal tt,
     World (<["waf" := File payload
                (Z.lor (match w_fs w !! "waf" with
                        | Some f => f_mode f
                        | None => creat_mode h
                        end) S_IXUSR)]> (w_fs w))
           (w_log w ++
              [EvPrint ("Downloading " ++ WAFURL ++ "...");
               EvHttpGet WAFURL;
               EvWrite "waf" payload;
               EvChmod "waf"
                 (Z.lor (match w_fs w !! "waf" with
                         | Some f => f_mode f
                         | None => creat_mode h
                         end) S_IXUSR);
               EvPrint "Checksum verified."])).
Proof.
  intros Hget Hsha. destruct w as [fs log].
  unfold download_and_verify. run_script.
  rewrite Hget. run_script. rewrite Hsha, String.eqb_refl.
  rewrite lookup_insert_eq. run_script. rewrite lookup_insert_eq.
  cbv beta iota delta [f_mode f_data].
  rewrite insert_insert_eq, chmod_or_mode.
  repeat rewrite <- app_assoc. reflexivity.
Qed.

(** The download step on a payload with another digest. *)
Lemma download_rejected (w : world) (payload : list Byte.byte) :
  urlopen_read h WAFURL = Some payload ->
  sha256_hexdigest h payload <> SHA256HASH ->
  download_and_verify h w =
    (SysExit 1,
     World (w_fs w)
           (w_log w ++
              [EvPrint ("Downloading " ++ WAFURL ++ "...");
               EvHttpGet WAFURL;
               EvPrint "The checksum of the downloaded file does not match!";
               EvPrint (" - got:      " ++ sha256_hexdigest h payload);
               EvPrint (" - expected: " ++ SHA256HASH);
               EvPrint "Please download and verify the file manually."])).
Proof.
  intros Hget Hsha. destruct w as [fs log].
  unfold download_and_verify. run_script.
  rewrite Hget. run_script.
  destruct (String.eqb SHA256HASH (sha256_hexdigest h payload)) eqn:E.
  - apply String.eqb_eq in E. congruence.
  - repeat rewrite <- app_assoc. reflexivity.
Qed.

(** A run that reached the network went through the skip test
    untouched. *)
Lemma run_downloaded (fs : filesystem) :
  In (EvHttpGet WAFURL) (w_log (run h fs).2) ->
  exists l,
    run h fs = download_and_verify h (World fs l)
    /\ Forall (fun e => modifies_fs e = false /\ is_request e = false) l.
Proof.
  unfold run, main. cbv beta delta [bind].
  destruct (skip_if_present_frame (World fs [])) as (c0 & l & Hs & Hl & Hc).
  rewrite Hs. cbv beta iota delta [w_fs w_log]. rewrite app_nil_l.
  intros Hin.
  assert (Hno : ~ In (EvHttpGet WAFURL) l).
  { intros Hl'. rewrite Forall_forall in Hl.
    apply list_elem_of_In in Hl'.
    destruct (Hl _ Hl') as [_ Hr]. discriminate Hr. }
  destruct Hc as [-> | [-> | [e ->]]].
  - exists l. split; [reflexivity | exact Hl].
  - exfalso. apply Hno. exact Hin.
  - exfalso. apply Hno. exact Hin.
Qed.

(** C1: a downloaded payload whose SHA-256 digest is the pinned one is
    written to the file [waf] byte for byte, the owner-execute bit of
    that file is set, every other mode bit is the one the file had (the
    creation mode for a new file), no other file changes, and the script
    ends with exit status 0. *)
Theorem verified_payload_installed (fs : filesystem)
    (payload : list Byte.byte) :
  In (EvHttpGet WAFURL) (w_log (run h fs).2) ->
  urlopen_read h WAFURL = Some payload ->
  sha256_hexdigest h payload = SHA256HASH ->
  exit_status (run h fs).1 = 0%Z
  /\ (exists f,
        w_fs (run h fs).2 !! "waf" = Some f
        /\ f_data f = payload
        /\ Z.testbit (f_mode f) 6 = true
        /\ forall i : Z, i <> 6%Z ->
             Z.testbit (f_mode f) i =
             Z.testbit (match fs !! "waf" with
                        | Some old => f_mode old
                        | None => creat_mode h
                        end) i)
  /\ (forall p : string, p <> "waf" -> w_fs (run h fs).2 !! p = fs !! p)
  /\ In (EvWrite "waf" payload) (w_log (run h fs).2).
Proof.
  intros Hin Hget Hsha.
  destruct (run_downloaded fs Hin) as (l & Hrun & _).
  rewrite Hrun, (download_verified _ payload Hget Hsha).
  cbv beta iota delta [fst snd w_fs w_log exit_status].
  split; [reflexivity|]. split; [|split].
  - eexists. split; [apply lookup_insert_eq|].
    cbv beta iota delta [f_data f_mode].
    split; [reflexivity|]. split.
    + rewrite Z.lor_spec, testbit_S_IXUSR. apply orb_true_r.
    + intros i Hi. rewrite Z.lor_spec, testbit_S_IXUSR.
      destruct (Z.eqb_spec 6 i) as [E|E]; [congruence|apply orb_false_r].
  - intros p Hp. apply lookup_insert_ne. congruence.
  - apply in_or_app. right. simpl. auto.
Qed.

(** C2: a downloaded payload whose SHA-256 digest is not the pinned one
    leaves the directory as it was, no write and no chmod happens, both
    the computed and the expected digest are printed, and the script ends
    with exit status 1. *)
Theorem mismatch_leaves_directory (fs : filesystem)
    (payload : list Byte.byte) :
  In (EvHttpGet WAFURL) (w_log (run h fs).2) ->
  urlopen_read h WAFURL = Some payload ->
  sha256_hexdigest h payload <> SHA256HASH ->
  exit_status (run h fs).1 = 1%Z
  /\ w_fs (run h fs).2 = fs
  /\ Forall (fun e => modifies_fs e = false) (w_log (run h fs).2)
  /\ In (EvPrint (" - got:      " ++ sha256_hexdigest h payload))
        (w_log (run h fs).2)
  /\ In (EvPrint (" - expected: " ++ SHA256HASH)) (w_log (run h fs).2).
Proof.
  intros Hin Hget Hsha.
  destruct (run_downloaded fs Hin) as (l & Hrun & Hl).
  rewrite Hrun, (download_rejected _ payload Hget Hsha).
  cbv beta iota delta [fst snd w_fs w_log exit_status].
  split; [reflexivity|]. split; [reflexivity|]. split; [|split].
  - apply Forall_app. split.
    + eapply Forall_impl; [exact Hl|]. intros e [He _]. exact He.
    + repeat constructor.
  - apply in_or_app. right. simpl. auto 10.
  - apply in_or_app. right. simpl. auto 10.
Qed.

(** C3: when a file [waf] exists and the second word of what it prints
    for [--version] is the version component of the pinned release name,
    the script runs that file, prints one line and exits with status 0:
    no network request, no write, no chmod, the directory unchanged. *)
Theorem present_version_skips_download (fs : filesystem) (f : file)
    (wafver : string) :
  fs !! "waf" = Some f ->
  check_output h f ["./waf"; "--version"] = Some wafver ->
  nth_error (PyStr.split " " wafver) 1
    = nth_error (PyStr.split "-" WAFRELEASE) 1 ->
  run h fs =
    (SysExit 0,
     World fs [EvExec ["./waf"; "--version"];
               EvPrint "Found 'waf', skipping download."])
  /\ exit_status (run h fs).1 = 0%Z
  /\ Forall (fun e => is_request e = false /\ modifies_fs e = false)
       (w_log (run h fs).2).
Proof.
  intros Hf Hout Hver.
  assert (Hrun : run h fs =
    (SysExit 0,
     World fs [EvExec ["./waf"; "--version"];
               EvPrint "Found 'waf', skipping download."])).
  { unfold run, main, skip_if_present. run_script.
    rewrite Hf, exists_some_true. run_script.
    rewrite Hf. run_script. rewrite Hout. run_script.
    rewrite Hver, pinned_version_component. run_script.
    rewrite String.eqb_refl. reflexivity. }
  rewrite Hrun. split; [reflexivity|]. split; [reflexivity|].
  repeat constructor.
Qed.

End BootstrapFacts.

Section BootstrapWitnesses.
Import Bootstrap Samples.

(** C1 at a directory holding an older [waf]: the good payload replaces
    it and the run ends with status 0. *)
Lemma verified_payload_installed_witness :
  In (EvHttpGet WAFURL) (w_log (run (mirror good_payload) stale_dir).2)
  /\ urlopen_read (mirror good_payload) WAFURL = Some good_payload
  /\ sha256_hexdigest (mirror good_payload) good_payload = SHA256HASH
  /\ exit_status (run (mirror good_payload) stale_dir).1 = 0%Z.
Proof.
  assert (H1 : In (EvHttpGet WAFURL)
                 (w_log (run (mirror good_payload) stale_dir).2))
    by (vm_compute; auto 10).
  assert (H2 : urlopen_read (mirror good_payload) WAFURL = Some good_payload)
    by reflexivity.
  assert (H3 : sha256_hexdigest (mirror good_payload) good_payload
               = SHA256HASH) by reflexivity.
  split; [exact H1|]. split; [exact H2|]. split; [exact H3|].
  exact (proj1 (verified_payload_installed
                  (mirror good_payload) stale_dir good_payload H1 H2 H3)).
Defined.

(** C2 at an empty directory and a mirror serving one wrong byte. *)
Lemma mismatch_leaves_directory_witness :
  In (EvHttpGet WAFURL) (w_log (run (mirror [Byte.x00]) ∅).2)
  /\ urlopen_read (mirror [Byte.x00]) WAFURL = Some [Byte.x00]
  /\ sha256_hexdigest (mirror [Byte.x00]) [Byte.x00] <> SHA256HASH
  /\ exit_status (run (mirror [Byte.x00]) ∅).1 = 1%Z
  /\ w_fs (run (mirror [Byte.x00]) ∅).2 = ∅.
Proof.
  assert (H1 : In (EvHttpGet WAFURL) (w_log (run (mirror [Byte.x00]) ∅).2))
    by (vm_compute; auto 10).
  assert (H2 : urlopen_read (mirror [Byte.x00]) WAFURL = Some [Byte.x00])
    by reflexivity.
  assert (H3 : sha256_hexdigest (mirror [Byte.x00]) [Byte.x00]
               <> SHA256HASH) by (vm_compute; discriminate).
  pose proof (mismatch_leaves_directory
                (mirror [Byte.x00]) ∅ [Byte.x00] H1 H2 H3) as (E & F & _).
  split; [exact H1|]. split; [exact H2|]. split; [exact H3|].
  split; [exact E|exact F].
Defined.

(** C3 at a directory holding the pinned [waf]. *)
Lemma present_version_skips_download_witness :
  fresh_dir !! "waf" = Some (File [Byte.x31] 33261)
  /\ check_output (mirror good_payload) (File [Byte.x31] 33261)
       ["./waf"; "--version"] = Some "waf 1.8.1 (abcdef)"
  /\ nth_error (PyStr.split " " "waf 1.8.1 (abcdef)") 1
     = nth_error (PyStr.split "-" WAFRELEASE) 1
  /\ exit_status (run (mirror good_payload) fresh_dir).1 = 0%Z.
Proof.
  assert (H1 : fresh_dir !! "waf" = Some (File [Byte.x31] 33261))
    by (vm_compute; reflexivity).
  assert (H2 : check_output (mirror good_payload) (File [Byte.x31] 33261)
                 ["./waf"; "--version"] = Some "waf 1.8.1 (abcdef)")
    by reflexivity.
  assert (H3 : nth_error (PyStr.split " " "waf 1.8.1 (abcdef)") 1
               = nth_error (PyStr.split "-" WAFRELEASE) 1) by reflexivity.
  pose proof (present_version_skips_download
                (mirror good_payload) fresh_dir _ _ H1 H2 H3) as (_ & E & _).
  split; [exact H1|]. split; [exact H2|]. split; [exact H3|]. exact E.
Defined.

End BootstrapWitnesses.

(* ===================================================================== *)
(** ** Properties of waftools/checks/custom.py *)
(* ===================================================================== *)

Section ScanFacts.
Import Custom.
Context {A : Type}.

(** A first-success scan answers with the disjunction and logs exactly
    the steps of the candidates it reached. *)
Lemma first_success_asks f ok ev (l : list A) :
  asks f ok ev ->
  forall s,
    (first_success f l s).1 = existsb ok l
    /\ st_log (first_success f l s).2
       = (st_log s ++ flat_map ev (tried ok l))%list.
Proof.
  intros Hf. induction l as [|x rest IH]; intros s.
  - simpl. rewrite app_nil_r. split; reflexivity.
  - cbn [first_success existsb tried flat_map]. unfold bind.
    destruct (Hf x s) as [Hr Hl].
    destruct (f x s) as [b s1]. simpl in Hr, Hl. subst b.
    destruct (ok x); simpl.
    + rewrite app_nil_r. split; [reflexivity | exact Hl].
    + destruct (IH s1) as [IHr IHl]. split; [exact IHr|].
      rewrite IHl, Hl, app_assoc. reflexivity.
Qed.

Lemma tried_prefix (ok : A -> bool) (l : list A) :
  tried ok l `prefix_of` l.
Proof.
  induction l as [|x rest IH]; simpl.
  - reflexivity.
  - destruct (ok x).
    + exists rest. reflexivity.
    + apply prefix_cons. exact IH.
Qed.

Lemma tried_sublist (ok : A -> bool) (l : list A) :
  tried ok l `sublist_of` l.
Proof.
  induction l as [|x rest IH]; cbn [tried].
  - constructor.
  - apply sublist_skip. destruct (ok x); [apply sublist_nil_l | exact IH].
Qed.

(** A scan that finds nothing has tried every candidate. *)
Lemma tried_all_of_failure (ok : A -> bool) (l : list A) :
  existsb ok l = false -> tried ok l = l.
Proof.
  induction l as [|x rest IH]; simpl; [reflexivity|].
  destruct (ok x); simpl; [discriminate|].
  intros H. rewrite IH by exact H. reflexivity.
Qed.

End ScanFacts.

Section CustomFacts.
Import Custom.
Variable h : host.

Lemma with_lib_fragment_request (frag : string) (flags : option string)
    (l0 l : string) :
  with_lib l (fragment_request frag flags l0) = fragment_request frag flags l.
Proof. reflexivity. Qed.

Lemma check_cc_asks (kw : cc_request) (dep : string) :
  asks (fun l => check_cc h kw dep (Some l))
       (fun l => compiles h (with_lib l kw))
       (fun l => [EvCompile (with_lib l kw)]).
Proof. intros l s. split; reflexivity. Qed.

(** [check_libs] over a compile probe: a scan of the library names. *)
Lemma check_libs_cc (libs : list string) (kw : cc_request) (dep : string)
    (lib_kw : option string) (s : state) :
  (check_libs libs (check_cc h kw) dep lib_kw s).1
    = existsb (fun l => compiles h (with_lib l kw)) libs
  /\ st_log (check_libs libs (check_cc h kw) dep lib_kw s).2
     = (st_log s
        ++ map (fun l => EvCompile (with_lib l kw))
             (tried (fun l => compiles h (with_lib l kw)) libs))%list.
Proof.
  unfold check_libs.
  destruct (first_success_asks _ _ _ libs (check_cc_asks kw dep) s)
    as [Hr Hl].
  split; [exact Hr|]. rewrite Hl. f_equal.
Qed.

(** [check_pthreads] once the define is known. *)
Lemma check_pthreads_scan (d dep : string) (s : state) :
  default "" (platform_cflags_table !! env_DEST_OS (st_ctx s)) = d ->
  (check_pthreads h dep s).1
    = existsb (fun c => compiles h (pthreads_request h c))
        (pthreads_combinations d)
  /\ st_log (check_pthreads h dep s).2
     = (st_log s
        ++ map (fun c => EvCompile (pthreads_request h c))
             (tried (fun c => compiles h (pthreads_request h c))
                (pthreads_combinations d)))%list.
Proof.
  intros Hd. unfold check_pthreads, bind, get_ctx. rewrite Hd.
  change (first_success _ _ s) with
    (first_success
       (fun kw => check_libs ["pthreadGC2"; "pthread"] (check_cc h kw)
                    dep None)
       [fragment_request (pthreads_program h) (Some d) "";
        fragment_request (pthreads_program h) None ""] s).
  edestruct (first_success_asks
               (fun kw => check_libs ["pthreadGC2"; "pthread"]
                            (check_cc h kw) dep None)) as [Hr Hl];
    [intros kw s0; apply check_libs_cc|].
  rewrite Hr, Hl. clear Hr Hl.
  unfold pthreads_combinations, pthreads_request.
  cbn [existsb tried map flat_map fst snd].
  rewrite !with_lib_fragment_request.
  destruct (compiles h (fragment_request _ (Some d) "pthreadGC2"));
    [split; reflexivity|].
  cbn [existsb tried map flat_map fst snd orb app].
  rewrite !with_lib_fragment_request.
  destruct (compiles h (fragment_request _ (Some d) "pthread"));
    [split; reflexivity|].
  cbn [existsb tried map flat_map fst snd orb app].
  rewrite !with_lib_fragment_request.
  destruct (compiles h (fragment_request _ None "pthreadGC2"));
    [split; reflexivity|].
  cbn [existsb tried map flat_map fst snd orb app].
  rewrite !with_lib_fragment_request.
  destruct (compiles h (fragment_request _ None "pthread"));
    split; reflexivity.
Qed.

Lemma linux_define :
  default "" (platform_cflags_table !! "linux") = "-D_REENTRANT".
Proof. vm_compute. reflexivity. Qed.


(** C4: on target OS [linux] the pthreads probe asks the host for the
    combinations (-D_REENTRANT, pthreadGC2), (-D_REENTRANT, pthread),
    (no flag, pthreadGC2), (no flag, pthread) in this order, stops after
    the first one that compiles and links, and returns true if and only
    if one of the four does. *)
Theorem pthreads_linux_combinations (dep : string) (s : state) :
  env_DEST_OS (st_ctx s) = "linux" ->
  let combos :=
    [(Some "-D_REENTRANT", "pthreadGC2"); (Some "-D_REENTRANT", "pthread");
     (None, "pthreadGC2"); (None, "pthread")] in
  let links := fun c => compiles h (pthreads_request h c) in
  st_log (check_pthreads h dep s).2
    = (st_log s
       ++ map (fun c => EvCompile (pthreads_request h c))
            (tried links combos))%list
  /\ ((check_pthreads h dep s).1 = true
      <-> exists c, In c combos /\ links c = true).
Proof.
  intros Hos combos links.
  destruct (check_pthreads_scan "-D_REENTRANT" dep s) as [Hr Hl].
  { rewrite Hos. exact linux_define. }
  split; [exact Hl|].
  rewrite Hr. apply existsb_exists.
Qed.

(** C8: the iconv probe asks the host to compile one fragment, first
    linked with [iconv] alone, then with the dynamic-loading libraries
    of the context followed by [iconv]; it stops at the first strategy
    that compiles and links and returns true exactly when one does. *)
Theorem iconv_two_strategies (dep : string) (s : state) :
  let request := fragment_request (load_fragment h "iconv.c") None in
  let links := fun l => compiles h (request l) in
  let strategies :=
    ["iconv"; PyStr.join " " (env_LIB_LIBDL (st_ctx s) ++ ["iconv"])] in
  st_log (check_iconv h dep s).2
    = (st_log s
       ++ map (fun l => EvCompile (request l)) (tried links strategies))%list
  /\ (check_iconv h dep s).1
     = links "iconv"
       || links (PyStr.join " " (env_LIB_LIBDL (st_ctx s) ++ ["iconv"])).
Proof.
  intros request links strategies.
  unfold check_iconv, bind, get_ctx.
  destruct (check_libs_cc strategies
              (fragment_request (load_fragment h "iconv.c") None "")
              dep None s) as [Hr Hl].
  split.
  - exact Hl.
  - unfold strategies in Hr. cbn [existsb] in Hr.
    rewrite orb_false_r in Hr. exact Hr.
Qed.


(** *** The Lua probe *)

Lemma quvi_variant_pure (s : state) : (quvi_variant h s).2 = s.
Proof.
  unfold quvi_variant, dependency_satisfied, bind, get_ctx, ret.
  destruct (bool_decide ("libquvi4" ∈ satisfied_deps (st_ctx s)));
    [reflexivity|].
  destruct (bool_decide ("libquvi9" ∈ satisfied_deps (st_ctx s)));
    reflexivity.
Qed.

Lemma check_lua_unfold (dep : string) (s : state) :
  check_lua h dep s =
    let '(quvi, hdr, code) := (quvi_variant h s).1 in
    first_success
      (lua_candidate h
         (str_format h (load_fragment h "lua.c")
            [("additional_lua_test_header", hdr);
             ("additional_lua_test_code", code)])
         quvi dep)
      (restrict_versions (options_LUA_VER (st_ctx s)) lua_versions) s.
Proof.
  unfold check_lua, bind, get_ctx.
  pose proof (quvi_variant_pure s) as Hp.
  destruct (quvi_variant h s) as [[[quvi hdr] code] s']. simpl in Hp.
  subst s'. reflexivity.
Qed.

(** [check_lua] is a first-success scan of the candidates the option
    leaves, each asked once. *)
Lemma check_lua_scan (dep : string) (s : state) :
  let cands := restrict_versions (options_LUA_VER (st_ctx s)) lua_versions in
  (check_lua h dep s).1 = existsb (lua_matches h s) cands
  /\ st_log (check_lua h dep s).2
     = (st_log s
        ++ flat_map (lua_events h s) (tried (lua_matches h s) cands))%list.
Proof.
  intros cands. unfold cands. rewrite check_lua_unfold.
  unfold lua_matches, lua_events, lua_request.
  destruct (quvi_variant h s).1 as [[quvi hdr] code].
  apply first_success_asks. intros [tag query] s1.
  unfold lua_candidate, compose_checks, check_pkg_config, check_cc, bind,
    emit, modify_ctx, ret, mark_satisfied, add_optional_message.
  cbn [fst snd st_log st_ctx].
  destruct (pkg_resolves h query); cbn [fst snd st_log st_ctx andb].
  - destruct (compiles h _); cbn [fst snd st_log st_ctx];
      rewrite <- app_assoc; split; reflexivity.
  - split; reflexivity.
Qed.

(** A candidate that succeeds is marked satisfied and named in the last
    optional message. *)
Lemma lua_candidate_success (dep frag : string) (quvi : list string)
    (tag q : string) (s : state) :
  (lua_candidate h frag quvi dep (tag, q) s).1 = true ->
  tag ∈ satisfied_deps (st_ctx (lua_candidate h frag quvi dep (tag, q) s).2)
  /\ last (optional_messages
             (st_ctx (lua_candidate h frag quvi dep (tag, q) s).2))
     = Some (dep, "version found: " ++ tag).
Proof.
  unfold lua_candidate, compose_checks, check_pkg_config, check_cc, bind,
    emit, modify_ctx, ret, mark_satisfied, add_optional_message.
  cbn [fst snd st_log st_ctx].
  destruct (pkg_resolves h q); cbn [fst snd st_log st_ctx];
    [|discriminate].
  destruct (compiles h _); cbn [fst snd st_log st_ctx]; [|discriminate].
  intros _. cbn [satisfied_deps optional_messages]. split.
  - apply elem_of_union_l, elem_of_singleton. reflexivity.
  - apply last_snoc.
Qed.

Lemma lua_scan_marks (dep frag : string) (quvi : list string)
    (ok : string * string -> bool) (l : list (string * string)) :
  (forall lv s, (lua_candidate h frag quvi dep lv s).1 = ok lv) ->
  forall s tag q,
    find ok l = Some (tag, q) ->
    tag ∈ satisfied_deps
            (st_ctx (first_success (lua_candidate h frag quvi dep) l s).2)
    /\ last (optional_messages
               (st_ctx (first_success (lua_candidate h frag quvi dep) l s).2))
       = Some (dep, "version found: " ++ tag).
Proof.
  intros Hok. induction l as [|[t0 q0] rest IH]; intros s tag q Hfind.
  - discriminate Hfind.
  - cbn [find first_success] in *. unfold bind.
    pose proof (Hok (t0, q0) s) as Hres.
    pose proof (lua_candidate_success dep frag quvi t0 q0 s) as Hmark.
    destruct (lua_candidate h frag quvi dep (t0, q0) s) as [b s1].
    cbn [fst snd] in Hres, Hmark. rewrite <- Hres in Hfind.
    destruct b.
    + injection Hfind as <- <-. apply Hmark. reflexivity.
    + apply (IH _ _ _ Hfind).
Qed.

Lemma lua_events_tag (s : state) (lv : string * string) (e : event) :
  e ∈ lua_events h s lv -> event_tag e = Some lv.1.
Proof.
  unfold lua_events. intros He.
  apply elem_of_cons in He as [-> | He]; [reflexivity|].
  destruct (pkg_resolves h lv.2).
  - apply list_elem_of_singleton in He as ->.
    unfold lua_request. destruct (quvi_variant h s).1 as [[quvi hdr] code].
    reflexivity.
  - apply elem_of_nil in He. contradiction.
Qed.

Lemma lua_events_NoDup (s : state) (lv : string * string) :
  NoDup (lua_events h s lv).
Proof.
  unfold lua_events. destruct (pkg_resolves h lv.2).
  - apply NoDup_cons. split; [|apply NoDup_singleton].
    intros He. apply list_elem_of_singleton in He. discriminate He.
  - apply NoDup_singleton.
Qed.

Lemma lua_events_flat_NoDup (s : state) (l : list (string * string)) :
  NoDup (map fst l) -> NoDup (flat_map (lua_events h s) l).
Proof.
  induction l as [|lv rest IH]; intros Hnd; cbn [flat_map map] in *.
  - constructor.
  - apply NoDup_cons in Hnd as [Hfresh Hrest].
    apply NoDup_app. split; [apply lua_events_NoDup|]. split; [|auto].
    intros e He Hin.
    apply lua_events_tag in He.
    apply list_elem_of_In, in_flat_map in Hin as (lv' & Hlv' & He').
    apply list_elem_of_In, lua_events_tag in He'.
    apply Hfresh. apply list_elem_of_In, in_map_iff.
    exists lv'. split; [congruence | exact Hlv'].
Qed.

Lemma map_fst_sublist (l1 l2 : list (string * string)) :
  l1 `sublist_of` l2 -> map fst l1 `sublist_of` map fst l2.
Proof.
  induction 1 as [|x l1 l2 _ IH|x l1 l2 _ IH]; cbn [map].
  - constructor.
  - apply sublist_skip. exact IH.
  - apply sublist_cons. exact IH.
Qed.

Lemma restrict_versions_sublist (v : option string)
    (l : list (string * string)) :
  restrict_versions v l `sublist_of` l.
Proof.
  unfold restrict_versions. destruct v as [v|]; [|reflexivity].
  destruct (PyStr.truthy v); [|reflexivity].
  induction l as [|x rest IH]; cbn [List.filter].
  - constructor.
  - destruct (String.eqb x.1 v).
    + apply sublist_skip. exact IH.
    + apply sublist_cons. exact IH.
Qed.

Lemma lua_tags_NoDup : NoDup (map fst lua_versions).
Proof. apply (bool_decide_unpack _). vm_compute. exact I. Qed.

Lemma lua_candidate_asks (dep : string) (s : state) :
  let '(quvi, hdr, code) := (quvi_variant h s).1 in
  asks (lua_candidate h
          (str_format h (load_fragment h "lua.c")
             [("additional_lua_test_header", hdr);
              ("additional_lua_test_code", code)])
          quvi dep)
       (lua_matches h s) (lua_events h s).
Proof.
  unfold lua_matches, lua_events, lua_request.
  destruct (quvi_variant h s).1 as [[quvi hdr] code].
  intros [tag query] s1.
  unfold lua_candidate, compose_checks, check_pkg_config, check_cc, bind,
    emit, modify_ctx, ret, mark_satisfied, add_optional_message.
  cbn [fst snd st_log st_ctx].
  destruct (pkg_resolves h query); cbn [fst snd st_log st_ctx andb].
  - destruct (compiles h _); cbn [fst snd st_log st_ctx];
      rewrite <- app_assoc; split; reflexivity.
  - split; reflexivity.
Qed.

Lemma find_none_existsb {A} (f : A -> bool) (l : list A) :
  find f l = None -> existsb f l = false.
Proof.
  induction l as [|x rest IH]; cbn [find existsb]; [reflexivity|].
  destruct (f x); [discriminate | exact IH].
Qed.

(** C7: the Lua probe goes through the candidates the option leaves in
    the declared order (5.1, Debian 5.1, LuaJIT, 5.2, Debian 5.2 when
    nothing is restricted); it asks pkg-config and then the compiler for
    each candidate up to the first that matches and for none after it, no
    request is made twice, the probe returns true exactly when a
    candidate matches, and the first match is marked satisfied and named
    in the last optional message. *)
Theorem lua_first_match_wins (dep : string) (s : state) :
  let cands := restrict_versions (options_LUA_VER (st_ctx s)) lua_versions in
  let r := check_lua h dep s in
  map fst (restrict_versions None lua_versions)
    = ["51"; "51deb"; "luajit"; "52"; "52deb"]
  /\ st_log r.2
     = (st_log s
        ++ flat_map (lua_events h s) (tried (lua_matches h s) cands))%list
  /\ NoDup (flat_map (lua_events h s) (tried (lua_matches h s) cands))
  /\ r.1 = existsb (lua_matches h s) cands
  /\ match find (lua_matches h s) cands with
     | Some lv =>
         r.1 = true
         /\ lv.1 ∈ satisfied_deps (st_ctx r.2)
         /\ last (optional_messages (st_ctx r.2))
            = Some (dep, "version found: " ++ lv.1)
     | None => r.1 = false
     end.
Proof.
  intros cands r. destruct (check_lua_scan dep s) as [Hr Hl].
  fold cands in Hr, Hl. fold r in Hr, Hl.
  split; [reflexivity|]. split; [exact Hl|]. split; [|split; [exact Hr|]].
  - apply lua_events_flat_NoDup.
    apply (sublist_NoDup _ (map fst lua_versions)); [apply lua_tags_NoDup|].
    apply map_fst_sublist. etransitivity.
    + apply tried_sublist.
    + apply restrict_versions_sublist.
  - destruct (find (lua_matches h s) cands) as [[tag q]|] eqn:Hfind.
    + split.
      * rewrite Hr. apply existsb_exists. exists (tag, q).
        apply find_some in Hfind. exact Hfind.
      * unfold r. rewrite check_lua_unfold.
        pose proof (lua_candidate_asks dep s) as Hasks.
        destruct (quvi_variant h s).1 as [[quvi hdr] code].
        apply (lua_scan_marks dep _ quvi (lua_matches h s) cands
                 (fun lv s' => proj1 (Hasks lv s')) s tag q Hfind).
    + rewrite Hr. apply find_none_existsb. exact Hfind.
Qed.

(** C5: with the option set to [52deb] the Lua probe makes exactly one
    pkg-config query, [lua5.2 >= 5.2.0] stored under [52deb], followed by
    the compile of the fragment if the query resolves; no other
    pkg-config query is made, whatever the host has installed. *)
Theorem lua_restricted_to_52deb (dep : string) (s : state) :
  options_LUA_VER (st_ctx s) = Some "52deb" ->
  st_log (check_lua h dep s).2
    = (st_log s
       ++ EvPkgConfig "lua5.2 >= 5.2.0" "52deb"
          :: (if pkg_resolves h "lua5.2 >= 5.2.0"
              then [EvCompile (lua_request h s "52deb")] else []))%list
  /\ (forall q t,
        In (EvPkgConfig q t) (st_log (check_lua h dep s).2) ->
        In (EvPkgConfig q t) (st_log s)
        \/ (q, t) = ("lua5.2 >= 5.2.0", "52deb")).
Proof.
  intros Hver. destruct (check_lua_scan dep s) as [_ Hl].
  rewrite Hver in Hl.
  change (restrict_versions (Some "52deb") lua_versions)
    with [("52deb", "lua5.2 >= 5.2.0")] in Hl.
  cbn [tried] in Hl.
  assert (Htried : forall b : bool,
            (if b then [] else @nil (string * string)) = [])
    by (intros []; reflexivity).
  rewrite Htried in Hl. cbn [flat_map] in Hl. rewrite app_nil_r in Hl.
  unfold lua_events in Hl. cbn [fst snd] in Hl.
  split; [exact Hl|].
  intros q t Hin. rewrite Hl in Hin.
  apply in_app_or in Hin as [Hin | Hin]; [left; exact Hin|right].
  destruct Hin as [Heq | Hin].
  - injection Heq as <- <-. reflexivity.
  - destruct (pkg_resolves h "lua5.2 >= 5.2.0"); cbn [In] in Hin.
    + destruct Hin as [Hbad | []]. discriminate Hbad.
    + destruct Hin.
Qed.

(** C9, as the code has it: with the option set to a non-empty string
    that is none of the five version tags no candidate is left, and the
    Lua probe returns false with no request made and the context
    unchanged. *)
Theorem lua_unknown_version_finds_nothing (dep : string) (s : state)
    (v : string) :
  options_LUA_VER (st_ctx s) = Some v ->
  v <> "" ->
  v ∉ ["51"; "51deb"; "luajit"; "52"; "52deb"] ->
  check_lua h dep s = (false, s).
Proof.
  intros Hver Hne Hv. rewrite check_lua_unfold.
  destruct (quvi_variant h s).1 as [[quvi hdr] code].
  rewrite Hver. unfold restrict_versions.
  assert (Ht : PyStr.truthy v = true) by (destruct v; [congruence|reflexivity]).
  rewrite Ht. unfold lua_versions. cbn [List.filter fst].
  repeat apply not_elem_of_cons in Hv as [?%String.eqb_neq Hv].
  rewrite (String.eqb_sym "51" v), (String.eqb_sym "51deb" v),
    (String.eqb_sym "luajit" v), (String.eqb_sym "52" v),
    (String.eqb_sym "52deb" v).
  repeat match goal with H : String.eqb v _ = false |- _ =>
           rewrite H; clear H end.
  reflexivity.
Qed.

(** *** The OSS probe *)

(** C6: when sourcing the OSS configuration gives an empty library
    directory the probe returns false without asking the compiler, the
    define of the dependency is cleared (the other defines stay), and a
    second call from the resulting state changes nothing. *)
Theorem oss_empty_libdir_clears_define (dep : string) (s : state) :
  get_osslibdir h = "" ->
  let r := check_oss_4front h dep s in
  r.1 = false
  /\ defines (st_ctx r.2) = delete (define_key h dep) (defines (st_ctx s))
  /\ defines (st_ctx r.2) !! define_key h dep = None
  /\ st_log r.2 = st_log s
  /\ check_oss_4front h dep r.2 = (false, r.2).
Proof.
  intros Hdir r. unfold r, check_oss_4front. rewrite Hdir.
  cbn [PyStr.truthy negb]. unfold undefine, bind, modify_ctx, ret.
  cbn [fst snd st_ctx st_log defines].
  split; [reflexivity|]. split; [reflexivity|].
  split; [apply lookup_delete_eq|]. split; [reflexivity|].
  cbn [env_DEST_OS env_LIB_LIBDL options_LUA_VER srcnode_abspath
       satisfied_deps optional_messages].
  rewrite delete_delete_eq. reflexivity.
Qed.

End CustomFacts.

Section CustomWitnesses.
Import Custom Samples.


Lemma unknown_53 : "53" ∉ ["51"; "51deb"; "luajit"; "52"; "52deb"].
Proof. apply (bool_decide_unpack _). vm_compute. exact I. Qed.

Lemma empty_is_no_tag : "" ∉ ["51"; "51deb"; "luajit"; "52"; "52deb"].
Proof. apply (bool_decide_unpack _). vm_compute. exact I. Qed.

(** C4 on the Debian host: the second combination links. *)
Lemma pthreads_linux_combinations_witness :
  env_DEST_OS (st_ctx (some_state "linux" None)) = "linux"
  /\ (check_pthreads debian "pthreads" (some_state "linux" None)).1 = true.
Proof.
  split; [reflexivity|].
  apply (pthreads_linux_combinations debian "pthreads"
           (some_state "linux" None) eq_refl).
  exists (Some "-D_REENTRANT", "pthread").
  split; [simpl; auto | reflexivity].
Defined.




(** C5 on the Debian host, where other Lua packages resolve as well. *)
Lemma lua_restricted_to_52deb_witness :
  options_LUA_VER (st_ctx (some_state "linux" (Some "52deb"))) = Some "52deb"
  /\ st_log (check_lua debian "lua" (some_state "linux" (Some "52deb"))).2
     = [EvPkgConfig "lua5.2 >= 5.2.0" "52deb";
        EvCompile (lua_request debian (some_state "linux" (Some "52deb"))
                     "52deb")].
Proof.
  split; [reflexivity|].
  exact (proj1 (lua_restricted_to_52deb debian "lua"
                  (some_state "linux" (Some "52deb")) eq_refl)).
Defined.

(** C9 with the option set to a version that does not exist. *)
Lemma lua_unknown_version_finds_nothing_witness :
  options_LUA_VER (st_ctx (some_state "linux" (Some "53"))) = Some "53"
  /\ "53" <> ""
  /\ ("53" ∉ ["51"; "51deb"; "luajit"; "52"; "52deb"])
  /\ check_lua debian "lua" (some_state "linux" (Some "53"))
     = (false, some_state "linux" (Some "53")).
Proof.
  split; [reflexivity|]. split; [discriminate|]. split; [exact unknown_53|].
  apply (lua_unknown_version_finds_nothing debian "lua"
           (some_state "linux" (Some "53")) "53" eq_refl);
    [discriminate | exact unknown_53].
Defined.

(** C9 as it was stated fails at the empty string: it is none of the five
    tags, the guard of the filter takes it for "no option", all five
    candidates stay, and on the Debian host the probe asks seven questions
    and finds Lua 5.2. *)
Lemma lua_empty_version_counterexample :
  options_LUA_VER (st_ctx (some_state "linux" (Some ""))) = Some ""
  /\ ("" ∉ ["51"; "51deb"; "luajit"; "52"; "52deb"])
  /\ restrict_versions (Some "") lua_versions = lua_versions
  /\ (check_lua debian "lua" (some_state "linux" (Some ""))).1 = true
  /\ length (st_log (check_lua debian "lua"
                       (some_state "linux" (Some ""))).2) = 7
  /\ check_lua debian "lua" (some_state "linux" (Some ""))
     <> (false, some_state "linux" (Some "")).
Proof.
  split; [reflexivity|]. split; [exact empty_is_no_tag|].
  split; [reflexivity|]. split; [vm_compute; reflexivity|].
  split; [vm_compute; reflexivity|].
  intros Heq. apply (f_equal fst) in Heq. vm_compute in Heq.
  discriminate Heq.
Qed.

(** C6 on the Debian host, whose [/etc/oss.conf] gives an empty line. *)
Lemma oss_empty_libdir_clears_define_witness :
  get_osslibdir debian = ""
  /\ defines (st_ctx (check_oss_4front debian "oss-audio"
                        (some_state "linux" None)).2)
       !! "HAVE_oss-audio" = None.
Proof.
  split; [reflexivity|].
  exact (proj1 (proj2 (proj2 (oss_empty_libdir_clears_define debian
                                "oss-audio" (some_state "linux" None)
                                eq_refl)))).
Defined.

End CustomWitnesses.

(* ===================================================================== *)
(** ** More about bootstrap.py: every path of the script *)
(* ===================================================================== *)

Section BootstrapPaths.
Import Bootstrap.
Variable h : host.

Ltac walk_script :=
  cbv beta iota zeta delta
    [bind ret raise print emit sys_exit index path_exists run_check_output
     http_get write_file stat_mode chmod w_fs w_log].

(** The download step on a network that fails. *)
Lemma download_unreachable (w : world) :
  urlopen_read h WAFURL = None ->
  download_and_verify h w =
    (Uncaught "URLError",
     World (w_fs w)
           (w_log w ++ [EvPrint ("Downloading " ++ WAFURL ++ "...");
                        EvHttpGet WAFURL])).
Proof.
  intros Hget. destruct w as [fs log].
  unfold download_and_verify. walk_script. rewrite Hget.
  rewrite <- app_assoc. reflexivity.
Qed.

(** The module body, path by path. *)
Lemma run_paths (fs : filesystem) :
  run h fs =
    match fs !! "waf" with
    | None => download_and_verify h (World fs [])
    | Some f =>
        match check_output h f ["./waf"; "--version"] with
        | None =>
            (Uncaught (check_output_error h f ["./waf"; "--version"]),
             World fs [EvExec ["./waf"; "--version"]])
        | Some out =>
            match nth_error (PyStr.split " " out) 1 with
            | None =>
                (Uncaught "IndexError",
                 World fs [EvExec ["./waf"; "--version"]])
            | Some v =>
                if String.eqb "1.8.1" v
                then (SysExit 0,
                      World fs [EvExec ["./waf"; "--version"];
                                EvPrint "Found 'waf', skipping download."])
                else download_and_verify h
                       (World fs [EvExec ["./waf"; "--version"]])
            end
        end
    end.
Proof.
  unfold run, main, skip_if_present.
  cbv beta iota zeta delta
    [bind ret raise print emit sys_exit index path_exists run_check_output
     w_fs w_log].
  rewrite pinned_version_component.
  destruct (fs !! "waf") as [f|] eqn:Hf.
  - rewrite exists_some_true.
    cbv beta iota zeta. rewrite Hf.
    destruct (check_output h f ["./waf"; "--version"]) as [out|];
      [|reflexivity].
    destruct (nth_error (PyStr.split " " out) 1) as [v|]; [|reflexivity].
    destruct (String.eqb "1.8.1" v); reflexivity.
  - rewrite exists_none_false. reflexivity.
Qed.

(** The download step, outcome by outcome. *)
Lemma download_paths (w : world) :
  download_and_verify h w =
    match urlopen_read h WAFURL with
    | None =>
        (Uncaught "URLError",
         World (w_fs w)
               (w_log w ++ [EvPrint ("Downloading " ++ WAFURL ++ "...");
                            EvHttpGet WAFURL]))
    | Some payload =>
        let mode := Z.lor (match w_fs w !! "waf" with
                           | Some f => f_mode f
                           | None => creat_mode h
                           end) S_IXUSR in
        if String.eqb SHA256HASH (sha256_hexdigest h payload)
        then (Normal tt,
              World (<["waf" := File payload mode]> (w_fs w))
                    (w_log w ++
                       [EvPrint ("Downloading " ++ WAFURL ++ "...");
                        EvHttpGet WAFURL;
                        EvWrite "waf" payload;
                        EvChmod "waf" mode;
                        EvPrint "Checksum verified."]))
        else (SysExit 1,
              World (w_fs w)
                    (w_log w ++
                       [EvPrint ("Downloading " ++ WAFURL ++ "...");
                        EvHttpGet WAFURL;
                        EvPrint
                          "The checksum of the downloaded file does not match!";
                        EvPrint (" - got:      " ++ sha256_hexdigest h payload);
                        EvPrint (" - expected: " ++ SHA256HASH);
                        EvPrint
                          "Please download and verify the file manually."]))
    end.
Proof.
  destruct (urlopen_read h WAFURL) as [payload|] eqn:Hget.
  - cbv zeta.
    destruct (String.eqb SHA256HASH (sha256_hexdigest h payload)) eqn:E.
    + apply String.eqb_eq in E. apply download_verified; [exact Hget|].
      symmetry. exact E.
    + apply String.eqb_neq in E. apply download_rejected; [exact Hget|].
      congruence.
  - apply download_unreachable. exact Hget.
Qed.

End BootstrapPaths.

Section PyStrFacts.

Lemma split_not_nil (sep : ascii) (s : string) : PyStr.split sep s <> [].
Proof.
  destruct s as [|c rest]; cbn [PyStr.split]; [discriminate|].
  destruct (Ascii.eqb c sep); [discriminate|].
  destruct (PyStr.split sep rest); discriminate.
Qed.

(** [s.split(sep)] has a second piece exactly when [sep] occurs in [s]. *)
Lemma split_second_piece (sep : ascii) (s : string) :
  nth_error (PyStr.split sep s) 1 = None
  <-> ~ In sep (list_ascii_of_string s).
Proof.
  induction s as [|c rest IH]; cbn [PyStr.split list_ascii_of_string].
  - split; [intros _ []|reflexivity].
  - destruct (Ascii.eqb_spec c sep) as [->|Hne].
    + cbn [nth_error]. pose proof (split_not_nil sep rest) as Hnn.
      destruct (PyStr.split sep rest) as [|w ws]; [contradiction|].
      split; [discriminate|]. intros Hno. exfalso. apply Hno. left.
      reflexivity.
    + pose proof (split_not_nil sep rest) as Hnn.
      destruct (PyStr.split sep rest) as [|w ws]; [contradiction|].
      cbn [nth_error] in *. rewrite IH. split.
      * intros Hno [Heq|Hin]; [congruence|exact (Hno Hin)].
      * intros Hno Hin. apply Hno. right. exact Hin.
Qed.

(** [s.rstrip()] is empty exactly when [s] is white space throughout. *)
Lemma rstrip_empty (s : string) :
  PyStr.rstrip s = EmptyString
  <-> forallb PyStr.isspace (list_ascii_of_string s) = true.
Proof.
  induction s as [|c rest IH]; cbn [PyStr.rstrip list_ascii_of_string forallb].
  - split; reflexivity.
  - destruct (PyStr.rstrip rest) as [|c' r'] eqn:Hr.
    + destruct (PyStr.isspace c); cbn [andb].
      * split; [intros _; apply IH; reflexivity | reflexivity].
      * split; discriminate.
    + split; [discriminate|]. intros Hall.
      apply andb_true_iff in Hall as [_ Hall]. apply IH in Hall.
      discriminate Hall.
Qed.

End PyStrFacts.

Section BootstrapGuarantees.
Import Bootstrap.
Variable h : host.

(** Split a run into its paths. *)
Ltac paths fs :=
  rewrite (run_paths h fs);
  let f := fresh "f" in
  let out := fresh "out" in
  let v := fresh "v" in
  destruct (fs !! "waf") as [f|] eqn:Hwaf;
  [ destruct (check_output h f ["./waf"; "--version"]) as [out|] eqn:Hout;
    [ destruct (nth_error (PyStr.split " " out) 1) as [v|] eqn:Hnth;
      [ destruct (String.eqb "1.8.1" v) eqn:Hver | ] | ] | ];
  rewrite ?download_paths;
  try match goal with
      | |- context [urlopen_read h WAFURL] =>
          destruct (urlopen_read h WAFURL) as [payload|] eqn:Hget;
          [ cbv zeta;
            destruct (String.eqb SHA256HASH (sha256_hexdigest h payload))
              eqn:Hsha
          | ]
      end;
  cbv beta iota delta [fst snd w_fs w_log exit_status].

(** X1: the script writes to no file but [waf], and only bytes that the
    mirror served and whose digest is the pinned one; it changes the mode
    of no file but [waf]. *)
Theorem writes_only_verified_payload (fs : filesystem) :
  Forall (fun e =>
            match e with
            | EvWrite path data =>
                path = "waf"
                /\ urlopen_read h WAFURL = Some data
                /\ sha256_hexdigest h data = SHA256HASH
            | EvChmod path _ => path = "waf"
            | _ => True
            end) (w_log (run h fs).2).
Proof.
  paths fs; cbn [app];
    try (apply String.eqb_eq in Hsha; symmetry in Hsha);
    repeat (constructor; try exact I; try reflexivity);
    repeat split; assumption.
Qed.

(** X2: exit status 0 means a [waf] is in the directory afterwards: the
    one that was there, untouched, or one whose bytes have the pinned
    digest. *)
Theorem exit_zero_leaves_waf (fs : filesystem) :
  exit_status (run h fs).1 = 0%Z ->
  exists f,
    w_fs (run h fs).2 !! "waf" = Some f
    /\ (fs !! "waf" = Some f /\ w_fs (run h fs).2 = fs
        \/ sha256_hexdigest h (f_data f) = SHA256HASH).
Proof.
  paths fs; intros Hexit; try discriminate Hexit.
  - exists f. rewrite ?Hwaf. split; [reflexivity|]. left.
    split; reflexivity.
  - eexists. split; [apply lookup_insert_eq|]. right.
    apply String.eqb_eq in Hsha. symmetry. exact Hsha.
  - eexists. split; [apply lookup_insert_eq|]. right.
    apply String.eqb_eq in Hsha. symmetry. exact Hsha.
Qed.

(** X3: when the download raises, the script ends with status 1 and has
    made no write and no chmod. *)
Theorem failed_download_writes_nothing (fs : filesystem) :
  In (EvHttpGet WAFURL) (w_log (run h fs).2) ->
  urlopen_read h WAFURL = None ->
  exit_status (run h fs).1 = 1%Z
  /\ Forall (fun e => modifies_fs e = false) (w_log (run h fs).2).
Proof.
  intros Hin Hnone.
  destruct (run_downloaded h fs Hin) as (l & Hrun & Hl).
  rewrite Hrun, (download_unreachable h _ Hnone).
  cbv beta iota delta [fst snd w_fs w_log exit_status].
  split; [reflexivity|]. apply Forall_app. split.
  - eapply Forall_impl; [exact Hl|]. intros e [He _]. exact He.
  - repeat constructor.
Qed.

(** X4: a [waf] that is there but cannot be run stops the script before
    anything is fetched: the exception of the failed run goes uncaught,
    the run of [waf] is all that happened, and the status is 1. *)
Theorem unrunnable_waf_blocks_download (fs : filesystem) (f : file) :
  fs !! "waf" = Some f ->
  check_output h f ["./waf"; "--version"] = None ->
  (run h fs).1 = Uncaught (check_output_error h f ["./waf"; "--version"])
  /\ w_log (run h fs).2 = [EvExec ["./waf"; "--version"]]
  /\ exit_status (run h fs).1 = 1%Z.
Proof.
  intros Hf Hout. rewrite (run_paths h fs), Hf, Hout.
  repeat split; reflexivity.
Qed.

(** X5: with a [waf] in the directory whose version output is [out], the
    script dies on [IndexError] exactly when [out] has no space; nothing
    is fetched then. *)
Theorem version_without_space_raises (fs : filesystem) (f : file)
    (out : string) :
  fs !! "waf" = Some f ->
  check_output h f ["./waf"; "--version"] = Some out ->
  ((run h fs).1 = Uncaught "IndexError"
   <-> ~ In " "%char (list_ascii_of_string out))
  /\ ((run h fs).1 = Uncaught "IndexError" ->
      (run h fs).2 = World fs [EvExec ["./waf"; "--version"]]).
Proof.
  intros Hf Hout. rewrite (run_paths h fs), Hf, Hout.
  rewrite <- split_second_piece.
  destruct (nth_error (PyStr.split " " out) 1) as [v|].
  - assert (Hno : forall c : completion unit * world,
              c = (SysExit 0,
                   World fs [EvExec ["./waf"; "--version"];
                             EvPrint "Found 'waf', skipping download."])
              \/ c = download_and_verify h
                       (World fs [EvExec ["./waf"; "--version"]]) ->
              c.1 <> Uncaught "IndexError").
    { intros c [->| ->]; [discriminate|]. rewrite download_paths.
      destruct (urlopen_read h WAFURL) as [payload|]; [|discriminate].
      cbv zeta.
      destruct (String.eqb SHA256HASH (sha256_hexdigest h payload));
        discriminate. }
    destruct (String.eqb "1.8.1" v).
    + split; [split|]; intros H; try discriminate H;
        exfalso; exact (Hno _ (or_introl eq_refl) H).
    + split; [split|]; intros H; try discriminate H;
        exfalso; exact (Hno _ (or_intror eq_refl) H).
  - split; [split; reflexivity | reflexivity].
Qed.

(** X6: a run makes at most one network request, and only for the pinned
    release URL. *)
Theorem at_most_one_request (fs : filesystem) :
  List.filter is_request (w_log (run h fs).2) = []
  \/ List.filter is_request (w_log (run h fs).2) = [EvHttpGet WAFURL].
Proof.
  paths fs; cbn [app List.filter is_request]; auto.
Qed.

(** X7: the network is reached exactly when no [waf] is in the directory
    or the one there reports a second word other than the pinned
    version. *)
Theorem request_iff_missing_or_stale (fs : filesystem) :
  In (EvHttpGet WAFURL) (w_log (run h fs).2)
  <-> match fs !! "waf" with
      | None => True
      | Some f =>
          exists out v,
            check_output h f ["./waf"; "--version"] = Some out
            /\ nth_error (PyStr.split " " out) 1 = Some v
            /\ v <> "1.8.1"
      end.
Proof.
  paths fs; cbn [app In]; split.
  all: try (intros _; auto 10; fail).
  all: try (intros _; exact I).
  all: try (intros Hin; exfalso;
            repeat (destruct Hin as [Hin|Hin]; try discriminate Hin);
            contradiction).
  all: try (intros (o & w & Ho & Hw & Hv); discriminate Ho).
  all: try (intros (o & w & Ho & Hw & Hv); injection Ho as <-;
            rewrite Hnth in Hw; discriminate Hw).
  all: try (intros (o & w & Ho & Hw & Hv); injection Ho as <-;
            rewrite Hnth in Hw; injection Hw as <-;
            apply String.eqb_eq in Hver; congruence).
  all: intros _; exists out, v; apply String.eqb_neq in Hver;
    split; [reflexivity|]; split; [exact Hnth | congruence].
Qed.

(** X8: running the script again after it installed a release whose
    [--version] output names the pinned version fetches nothing: the
    second run only runs [waf], prints one line and exits with 0. *)
Theorem second_run_skips (fs : filesystem) (payload : list Byte.byte)
    (out : string) :
  In (EvHttpGet WAFURL) (w_log (run h fs).2) ->
  urlopen_read h WAFURL = Some payload ->
  sha256_hexdigest h payload = SHA256HASH ->
  (forall f, w_fs (run h fs).2 !! "waf" = Some f ->
             check_output h f ["./waf"; "--version"] = Some out) ->
  nth_error (PyStr.split " " out) 1 = Some "1.8.1" ->
  (run h (w_fs (run h fs).2)).1 = SysExit 0
  /\ w_log (run h (w_fs (run h fs).2)).2
     = [EvExec ["./waf"; "--version"];
        EvPrint "Found 'waf', skipping download."].
Proof.
  intros Hin Hget Hsha Hrun Hver.
  destruct (run_downloaded h fs Hin) as (l & Hfirst & _).
  rewrite Hfirst, (download_verified h _ payload Hget Hsha) in Hrun |- *.
  cbv beta iota delta [fst snd w_fs w_log] in Hrun |- *.
  rewrite run_paths, lookup_insert_eq.
  rewrite (Hrun _ (lookup_insert_eq _ _ _)), Hver.
  split; reflexivity.
Qed.

End BootstrapGuarantees.

(* ===================================================================== *)
(** ** More about waftools/checks/custom.py *)
(* ===================================================================== *)

Section ScanBounds.
Import Custom.
Context {A : Type}.

Lemma tried_length_le (ok : A -> bool) (l : list A) :
  length (tried ok l) <= length l.
Proof.
  induction l as [|x rest IH]; cbn [tried length]; [lia|].
  destruct (ok x); cbn [length]; lia.
Qed.

Lemma tried_length_pos (ok : A -> bool) (x : A) (l : list A) :
  1 <= length (tried ok (x :: l)).
Proof. cbn [tried length]. lia. Qed.

Lemma tried_In (ok : A -> bool) (l : list A) (x : A) :
  In x (tried ok l) -> In x l.
Proof.
  intros Hin. apply list_elem_of_In.
  apply list_elem_of_In in Hin.
  exact (elem_of_sublist _ _ _ Hin (tried_sublist ok l)).
Qed.

End ScanBounds.

Section CustomGuarantees.
Import Custom.
Variable h : host.

Lemma string_app_assoc (a b c : string) :
  ((a ++ b) ++ c = a ++ (b ++ c))%string.
Proof.
  induction a as [|x a IH]; [reflexivity|].
  change (String x ((a ++ b) ++ c) = String x (a ++ (b ++ c)))%string.
  rewrite IH. reflexivity.
Qed.

(** X9: on every target OS the pthreads probe makes between one and four
    compile requests, each for the pthreads fragment linked with
    [pthreadGC2] or [pthread], and it gives up only after all four. *)
Theorem pthreads_request_budget (dep : string) (s : state) :
  exists new,
    st_log (check_pthreads h dep s).2 = (st_log s ++ new)%list
    /\ 1 <= length new <= 4
    /\ Forall (fun e => exists d l,
                 e = EvCompile (fragment_request (pthreads_program h) d l)
                 /\ (l = "pthreadGC2" \/ l = "pthread")) new
    /\ ((check_pthreads h dep s).1 = true \/ length new = 4).
Proof.
  destruct (check_pthreads_scan h _ dep s eq_refl) as [Hr Hl].
  set (d := default "" (platform_cflags_table !! env_DEST_OS (st_ctx s))) in *.
  set (ok := fun c => compiles h (pthreads_request h c)) in *.
  exists (map (fun c => EvCompile (pthreads_request h c))
            (tried ok (pthreads_combinations d))).
  split; [exact Hl|]. rewrite length_map. split; [|split].
  - split; [apply tried_length_pos|].
    etransitivity; [apply tried_length_le|].
    unfold pthreads_combinations. cbn [length]. lia.
  - apply Forall_forall. intros e He.
    apply list_elem_of_In, in_map_iff in He as (c & <- & Hc).
    apply tried_In in Hc. exists c.1, c.2. split; [reflexivity|].
    cbn [pthreads_combinations In] in Hc.
    destruct Hc as [<-|[<-|[<-|[<-|[]]]]]; cbn [snd]; auto.
  - rewrite Hr. destruct (existsb ok (pthreads_combinations d)) eqn:E;
      [left; reflexivity|right].
    rewrite (tried_all_of_failure _ _ E). reflexivity.
Qed.

(** X10: the platform define never costs a detection: if the pthreads
    fragment links with one of the two libraries and no flag, the probe
    returns true on every target OS. *)
Theorem pthreads_plain_link_suffices (dep : string) (s : state)
    (l : string) :
  In l ["pthreadGC2"; "pthread"] ->
  compiles h (pthreads_request h (None, l)) = true ->
  (check_pthreads h dep s).1 = true.
Proof.
  intros Hl Hok.
  destruct (check_pthreads_scan h _ dep s eq_refl) as [Hr _].
  rewrite Hr. apply existsb_exists. exists (None, l). split; [|exact Hok].
  cbn [pthreads_combinations In]. cbn [In] in Hl.
  destruct Hl as [<-|[<-|[]]]; auto.
Qed.

(** X11: where the context has no dynamic-loading library, the second
    iconv strategy is the first one again: the result is whether the
    fragment links with [iconv], and a failure is asked twice. *)
Theorem iconv_without_libdl (dep : string) (s : state) :
  env_LIB_LIBDL (st_ctx s) = [] ->
  let request := fragment_request (load_fragment h "iconv.c") None "iconv" in
  (check_iconv h dep s).1 = compiles h request
  /\ st_log (check_iconv h dep s).2
     = (st_log s
        ++ (if compiles h request then [EvCompile request]
            else [EvCompile request; EvCompile request]))%list.
Proof.
  intros Hdl request. unfold check_iconv, bind, get_ctx. rewrite Hdl.
  cbn [app PyStr.join].
  destruct (check_libs_cc h ["iconv"; "iconv"]
              (fragment_request (load_fragment h "iconv.c") None "")
              dep None s) as [Hr Hl].
  change (check_libs _ _ dep None s) with
    (check_libs ["iconv"; "iconv"]
       (check_cc h (fragment_request (load_fragment h "iconv.c") None ""))
       dep None s).
  rewrite Hr, Hl.
  cbn [existsb tried map]. rewrite !with_lib_fragment_request.
  fold request. destruct (compiles h request); split; reflexivity.
Qed.

(** What [quvi_variant] returns, read off the satisfied dependencies. *)
Lemma quvi_variant_storage (s : state) :
  (quvi_variant h s).1.1.1
  = if bool_decide ("libquvi4" ∈ satisfied_deps (st_ctx s))
    then ["libquvi4"]
    else if bool_decide ("libquvi9" ∈ satisfied_deps (st_ctx s))
         then ["libquvi9"] else [].
Proof.
  unfold quvi_variant, dependency_satisfied, bind, get_ctx, ret.
  destruct (bool_decide ("libquvi4" ∈ satisfied_deps (st_ctx s)));
    [reflexivity|].
  destruct (bool_decide ("libquvi9" ∈ satisfied_deps (st_ctx s)));
    reflexivity.
Qed.

Lemma lua_request_use (s : state) (tag : string) :
  use (lua_request h s tag) = tag :: (quvi_variant h s).1.1.1
  /\ execute (lua_request h s tag) = true.
Proof.
  unfold lua_request. destruct (quvi_variant h s).1 as [[quvi hdr] code].
  split; reflexivity.
Qed.

(** The events the Lua probe adds come from candidates of the list, and
    a candidate that contributes one contributes all of its events. *)
Lemma lua_new_events (dep : string) (s : state) (e : event) :
  In e (st_log (check_lua h dep s).2) ->
  In e (st_log s)
  \/ exists lv,
       In lv lua_versions
       /\ In e (lua_events h s lv)
       /\ forall e', In e' (lua_events h s lv) ->
                     In e' (st_log (check_lua h dep s).2).
Proof.
  destruct (check_lua_scan h dep s) as [_ Hl]. rewrite Hl.
  intros Hin. apply in_app_or in Hin as [Hin|Hin]; [left; exact Hin|right].
  apply in_flat_map in Hin as (lv & Hlv & He).
  exists lv. split; [|split; [exact He|]].
  - apply tried_In in Hlv. apply list_elem_of_In.
    apply list_elem_of_In in Hlv.
    exact (elem_of_sublist _ _ _ Hlv (restrict_versions_sublist _ _)).
  - intros e' He'. apply in_or_app. right. apply in_flat_map.
    exists lv. split; assumption.
Qed.

(** X12: the Lua probe asks the compiler only for a candidate whose
    pkg-config query it has made and seen resolve, and always to run the
    fragment. *)
Theorem lua_compiles_only_resolved (dep : string) (s : state)
    (rq : cc_request) :
  In (EvCompile rq) (st_log (check_lua h dep s).2) ->
  In (EvCompile rq) (st_log s)
  \/ exists tag q,
       In (tag, q) lua_versions
       /\ pkg_resolves h q = true
       /\ In (EvPkgConfig q tag) (st_log (check_lua h dep s).2)
       /\ head (use rq) = Some tag
       /\ execute rq = true.
Proof.
  intros Hin. destruct (lua_new_events dep s _ Hin)
    as [Hold | ([tag q] & Hlv & He & Hall)]; [left; exact Hold|right].
  exists tag, q. split; [exact Hlv|].
  unfold lua_events in He, Hall. cbn [fst snd] in He, Hall.
  destruct He as [Hbad | He]; [discriminate Hbad|].
  destruct (pkg_resolves h q); [|destruct He].
  destruct He as [Heq | []]. injection Heq as <-.
  split; [reflexivity|]. split; [apply Hall; left; reflexivity|].
  destruct (lua_request_use s tag) as [Huse Hexec].
  rewrite Huse. split; [reflexivity | exact Hexec].
Qed.

(** X13: the two quvi variants exclude each other in what the Lua probe
    links: a compile request names the version tag and then [libquvi4] if
    that is satisfied, else [libquvi9] if that is, else nothing. *)
Theorem lua_links_one_companion (dep : string) (s : state)
    (rq : cc_request) :
  In (EvCompile rq) (st_log (check_lua h dep s).2) ->
  In (EvCompile rq) (st_log s)
  \/ tail (use rq)
     = if bool_decide ("libquvi4" ∈ satisfied_deps (st_ctx s))
       then ["libquvi4"]
       else if bool_decide ("libquvi9" ∈ satisfied_deps (st_ctx s))
            then ["libquvi9"] else [].
Proof.
  intros Hin. destruct (lua_new_events dep s _ Hin)
    as [Hold | ([tag q] & Hlv & He & _)]; [left; exact Hold|right].
  unfold lua_events in He. cbn [fst snd] in He.
  destruct He as [Hbad | He]; [discriminate Hbad|].
  destruct (pkg_resolves h q); [|destruct He].
  destruct He as [Heq | []]. injection Heq as <-.
  destruct (lua_request_use s tag) as [Huse _].
  rewrite Huse. cbn [tail]. apply quvi_variant_storage.
Qed.

(** A non-empty option leaves at most one candidate, the one it names. *)
Lemma restrict_versions_one (v : string) :
  v <> "" ->
  restrict_versions (Some v) lua_versions = []
  \/ exists q, restrict_versions (Some v) lua_versions = [(v, q)].
Proof.
  intros Hne. unfold restrict_versions.
  assert (Ht : PyStr.truthy v = true) by (destruct v; [congruence|reflexivity]).
  rewrite Ht. unfold lua_versions. cbn [List.filter fst].
  destruct (String.eqb_spec "51" v) as [<-|H1];
    [right; eexists; reflexivity|].
  destruct (String.eqb_spec "51deb" v) as [<-|H2];
    [right; eexists; reflexivity|].
  destruct (String.eqb_spec "luajit" v) as [<-|H3];
    [right; eexists; reflexivity|].
  destruct (String.eqb_spec "52" v) as [<-|H4];
    [right; eexists; reflexivity|].
  destruct (String.eqb_spec "52deb" v) as [<-|H5];
    [right; eexists; reflexivity|].
  left. reflexivity.
Qed.

(** X14: with the option set to a non-empty string the Lua probe makes at
    most two requests, one pkg-config query and one compile, and both are
    for the version the option names. *)
Theorem lua_option_selects_one (dep : string) (s : state) (v : string) :
  options_LUA_VER (st_ctx s) = Some v ->
  v <> "" ->
  exists new,
    st_log (check_lua h dep s).2 = (st_log s ++ new)%list
    /\ length new <= 2
    /\ Forall (fun e => event_tag e = Some v) new.
Proof.
  intros Hver Hne. destruct (check_lua_scan h dep s) as [_ Hl].
  rewrite Hver in Hl.
  destruct (restrict_versions_one v Hne) as [Hc | [q Hc]];
    rewrite Hc in Hl; cbn [tried flat_map] in Hl.
  - exists []. split; [exact Hl|]. split; [cbn; lia | constructor].
  - assert (Htried : forall b : bool,
              (if b then [] else @nil (string * string)) = [])
      by (intros []; reflexivity).
    rewrite Htried in Hl. cbn [flat_map] in Hl. rewrite app_nil_r in Hl.
    exists (lua_events h s (v, q)). split; [exact Hl|]. split.
    + unfold lua_events. destruct (pkg_resolves h (v, q).2); cbn; lia.
    + apply Forall_forall. intros e He.
      exact (lua_events_tag h s (v, q) e He).
Qed.

(** What one candidate of the Lua loop does to the satisfied
    dependencies, for a framework that does not touch them itself. *)
Lemma lua_candidate_satisfied (dep frag : string) (quvi : list string)
    (tag q : string) (s : state) :
  (forall rq d ok c,
     satisfied_deps (cc_record h rq d ok c) = satisfied_deps c) ->
  (forall q' t d ok c,
     satisfied_deps (pkg_record h q' t d ok c) = satisfied_deps c) ->
  satisfied_deps (st_ctx (lua_candidate h frag quvi dep (tag, q) s).2)
  = if (lua_candidate h frag quvi dep (tag, q) s).1
    then {[tag]} ∪ satisfied_deps (st_ctx s)
    else satisfied_deps (st_ctx s).
Proof.
  intros Hcc Hpkg.
  unfold lua_candidate, compose_checks, check_pkg_config, check_cc,
    mark_satisfied, add_optional_message, bind, emit, modify_ctx, ret.
  cbn [fst snd st_log st_ctx].
  destruct (pkg_resolves h q); cbn [fst snd st_log st_ctx].
  - destruct (compiles h _); cbn [fst snd st_log st_ctx satisfied_deps];
      rewrite Hcc, Hpkg; reflexivity.
  - apply Hpkg.
Qed.

Lemma lua_scan_satisfied (dep frag : string) (quvi : list string)
    (ok : string * string -> bool) (l : list (string * string)) :
  (forall rq d b c,
     satisfied_deps (cc_record h rq d b c) = satisfied_deps c) ->
  (forall q' t d b c,
     satisfied_deps (pkg_record h q' t d b c) = satisfied_deps c) ->
  (forall lv s, (lua_candidate h frag quvi dep lv s).1 = ok lv) ->
  forall s,
    satisfied_deps
      (st_ctx (first_success (lua_candidate h frag quvi dep) l s).2)
    = match find ok l with
      | Some lv => {[lv.1]} ∪ satisfied_deps (st_ctx s)
      | None => satisfied_deps (st_ctx s)
      end.
Proof.
  intros Hcc Hpkg Hok. induction l as [|[t0 q0] rest IH]; intros s.
  - reflexivity.
  - cbn [find first_success]. unfold bind.
    pose proof (Hok (t0, q0) s) as Hres.
    pose proof (lua_candidate_satisfied dep frag quvi t0 q0 s Hcc Hpkg)
      as Hsat.
    destruct (lua_candidate h frag quvi dep (t0, q0) s) as [b s1].
    cbn [fst snd] in Hres, Hsat. rewrite <- Hres.
    destruct b.
    + exact Hsat.
    + rewrite IH, Hsat. reflexivity.
Qed.

(** X15: when the framework's own recording leaves the satisfied
    dependencies alone, the Lua probe marks exactly the version of the
    first candidate that matches, and nothing when none matches. *)
Theorem lua_marks_only_winner (dep : string) (s : state) :
  (forall rq d b c,
     satisfied_deps (cc_record h rq d b c) = satisfied_deps c) ->
  (forall q t d b c,
     satisfied_deps (pkg_record h q t d b c) = satisfied_deps c) ->
  satisfied_deps (st_ctx (check_lua h dep s).2)
  = match find (lua_matches h s)
            (restrict_versions (options_LUA_VER (st_ctx s)) lua_versions) with
    | Some lv => {[lv.1]} ∪ satisfied_deps (st_ctx s)
    | None => satisfied_deps (st_ctx s)
    end.
Proof.
  intros Hcc Hpkg. rewrite check_lua_unfold.
  pose proof (lua_candidate_asks h dep s) as Hasks.
  destruct (quvi_variant h s).1 as [[quvi hdr] code].
  apply lua_scan_satisfied; [exact Hcc | exact Hpkg|].
  intros lv s'. exact (proj1 (Hasks lv s')).
Qed.

Lemma soundcard_under_include (dir : string) :
  dir <> "" ->
  path_join dir "include/sys/soundcard.h"
  = (path_join dir "include" ++ "/sys/soundcard.h")%string.
Proof.
  intros Hdir. unfold path_join. destruct dir as [|c rest]; [congruence|].
  cbv beta iota.
  destruct (String.eqb _ "/"); rewrite string_app_assoc.
  - reflexivity.
  - rewrite string_app_assoc. reflexivity.
Qed.

(** X16: when the OSS configuration names a library directory the probe
    makes one compile request and returns its outcome; the header it asks
    for is [sys/soundcard.h] under the directory's [include], the same
    [include] the [-I] flag names, and the probe clears no define itself. *)
Theorem oss_probe_under_libdir (dep : string) (s : state) :
  get_osslibdir h <> "" ->
  exists rq,
    st_log (check_oss_4front h dep s).2 = (st_log s ++ [EvCompile rq])%list
    /\ (check_oss_4front h dep s).1 = compiles h rq
    /\ header_name rq
       = (path_join (get_osslibdir h) "include" ++ "/sys/soundcard.h")%string
    /\ cflags rq
       = Some ("-I" ++ path_join (get_osslibdir h) "include")%string
    /\ st_ctx (check_oss_4front h dep s).2
       = cc_record h rq dep (compiles h rq) (st_ctx s).
Proof.
  intros Hdir. unfold check_oss_4front.
  assert (Ht : PyStr.truthy (get_osslibdir h) = true).
  { destruct (get_osslibdir h); [congruence|reflexivity]. }
  rewrite Ht. cbn [negb].
  unfold check_cc, bind, emit, modify_ctx, ret. cbn [fst snd st_log st_ctx].
  eexists. split; [reflexivity|]. split; [reflexivity|].
  cbn [header_name cflags]. split; [|split; reflexivity].
  apply soundcard_under_include. exact Hdir.
Qed.

(** X17: the OSS probe leaves the compiler alone exactly when the shell
    printed nothing but white space. *)
Theorem oss_probe_asks_iff_libdir (dep : string) (s : state) :
  forallb PyStr.isspace (list_ascii_of_string (oss_conf_stdout h)) = true
  <-> st_log (check_oss_4front h dep s).2 = st_log s.
Proof.
  rewrite <- rstrip_empty. fold (get_osslibdir h). split.
  - intros Hdir. unfold check_oss_4front. rewrite Hdir. reflexivity.
  - intros Hlog. destruct (String.string_dec (get_osslibdir h) "") as [E|E];
      [exact E|].
    destruct (oss_probe_under_libdir dep s E) as (rq & Hl & _).
    rewrite Hl in Hlog. apply (f_equal (@length _)) in Hlog.
    rewrite length_app in Hlog. cbn [length] in Hlog. lia.
Qed.

(** X18: only the Lua probe consults pkg-config: the pthreads, iconv, OSS
    and Cocoa probes add no pkg-config query to the log. *)
Theorem only_lua_queries_pkg_config (c : check) (dep : string) (s : state)
    (q t : string) :
  In c [check_pthreads h; check_iconv h; check_oss_4front h; check_cocoa h] ->
  In (EvPkgConfig q t) (st_log (c dep s).2) ->
  In (EvPkgConfig q t) (st_log s).
Proof.
  intros Hc Hin.
  assert (Hnew : exists l,
            st_log (c dep s).2 = (st_log s ++ map EvCompile l)%list).
  { cbn [In] in Hc. destruct Hc as [<-|[<-|[<-|[<-|[]]]]].
    - destruct (check_pthreads_scan h _ dep s eq_refl) as [_ Hl].
      eexists. rewrite Hl, <- map_map. reflexivity.
    - unfold check_iconv, bind, get_ctx.
      destruct (check_libs_cc h
                  ["iconv";
                   PyStr.join " " (env_LIB_LIBDL (st_ctx s) ++ ["iconv"])]
                  (fragment_request (load_fragment h "iconv.c") None "")
                  dep None s) as [_ Hl].
      eexists. etransitivity; [exact Hl|]. rewrite <- map_map. reflexivity.
    - unfold check_oss_4front.
      destruct (negb (PyStr.truthy (get_osslibdir h))).
      + exists []. cbn. rewrite app_nil_r. reflexivity.
      + eexists [_]. reflexivity.
    - eexists [_]. reflexivity. }
  destruct Hnew as [l Hl]. rewrite Hl in Hin.
  apply in_app_or in Hin as [Hin|Hin]; [exact Hin|].
  apply in_map_iff in Hin as (rq & Hbad & _). discriminate Hbad.
Qed.

End CustomGuarantees.

Section GuaranteeWitnesses.
Import Samples.

(** X2 on a fresh directory and the release mirror. *)
Lemma exit_zero_leaves_waf_witness :
  Bootstrap.exit_status (Bootstrap.run release_mirror ∅).1 = 0%Z
  /\ is_Some (Bootstrap.w_fs (Bootstrap.run release_mirror ∅).2 !! "waf").
Proof.
  assert (H0 : Bootstrap.exit_status (Bootstrap.run release_mirror ∅).1 = 0%Z)
    by (vm_compute; reflexivity).
  split; [exact H0|].
  destruct (exit_zero_leaves_waf release_mirror ∅ H0) as (f & Hf & _).
  exists f. exact Hf.
Defined.

(** X3 on a machine without network. *)
Lemma failed_download_writes_nothing_witness :
  In (Bootstrap.EvHttpGet Bootstrap.WAFURL)
     (Bootstrap.w_log (Bootstrap.run stranded ∅).2)
  /\ Bootstrap.urlopen_read stranded Bootstrap.WAFURL = None
  /\ Bootstrap.exit_status (Bootstrap.run stranded ∅).1 = 1%Z.
Proof.
  assert (H1 : In (Bootstrap.EvHttpGet Bootstrap.WAFURL)
                 (Bootstrap.w_log (Bootstrap.run stranded ∅).2))
    by (vm_compute; auto 10).
  assert (H2 : Bootstrap.urlopen_read stranded Bootstrap.WAFURL = None)
    by reflexivity.
  split; [exact H1|]. split; [exact H2|].
  exact (proj1 (failed_download_writes_nothing stranded ∅ H1 H2)).
Defined.

(** X4 on a directory whose [waf] has mode 0o644: running it raises
    [PermissionError]. *)
Lemma unrunnable_waf_blocks_download_witness :
  stale_dir !! "waf" = Some (Bootstrap.File [Byte.x30] 33188)
  /\ Bootstrap.check_output stranded (Bootstrap.File [Byte.x30] 33188)
       ["./waf"; "--version"] = None
  /\ (Bootstrap.run stranded stale_dir).1
     = Bootstrap.Uncaught "PermissionError".
Proof.
  assert (H1 : stale_dir !! "waf" = Some (Bootstrap.File [Byte.x30] 33188))
    by (vm_compute; reflexivity).
  assert (H2 : Bootstrap.check_output stranded
                 (Bootstrap.File [Byte.x30] 33188) ["./waf"; "--version"]
               = None) by reflexivity.
  split; [exact H1|]. split; [exact H2|].
  exact (proj1 (unrunnable_waf_blocks_download stranded stale_dir _ H1 H2)).
Defined.

(** X5 on a [waf] that prints one word. *)
Lemma version_without_space_raises_witness :
  stale_dir !! "waf" = Some (Bootstrap.File [Byte.x30] 33188)
  /\ Bootstrap.check_output terse (Bootstrap.File [Byte.x30] 33188)
       ["./waf"; "--version"] = Some "waf"
  /\ (Bootstrap.run terse stale_dir).1 = Bootstrap.Uncaught "IndexError".
Proof.
  assert (H1 : stale_dir !! "waf" = Some (Bootstrap.File [Byte.x30] 33188))
    by (vm_compute; reflexivity).
  assert (H2 : Bootstrap.check_output terse
                 (Bootstrap.File [Byte.x30] 33188) ["./waf"; "--version"]
               = Some "waf") by reflexivity.
  split; [exact H1|]. split; [exact H2|].
  apply (proj1 (version_without_space_raises terse stale_dir _ "waf" H1 H2)).
  cbn. intros [H|[H|[H|[]]]]; discriminate H.
Defined.

Lemma honest_install_runs (f : Bootstrap.file) :
  Bootstrap.w_fs (Bootstrap.run honest_mirror ∅).2 !! "waf" = Some f ->
  Bootstrap.check_output honest_mirror f ["./waf"; "--version"]
  = Some ("waf 1.8.1 (abcdef)" ++ String (ascii_of_nat 10) EmptyString).
Proof.
  intros Hf.
  assert (Hinst : Bootstrap.w_fs (Bootstrap.run honest_mirror ∅).2 !! "waf"
                  = Some (Bootstrap.File script_payload 33252))
    by (vm_compute; reflexivity).
  rewrite Hinst in Hf. injection Hf as <-. vm_compute. reflexivity.
Qed.

(** X8 on a fresh directory: the script is installed with mode 0o100744,
    runs, and the second run skips. *)
Lemma second_run_skips_witness :
  In (Bootstrap.EvHttpGet Bootstrap.WAFURL)
     (Bootstrap.w_log (Bootstrap.run honest_mirror ∅).2)
  /\ Bootstrap.urlopen_read honest_mirror Bootstrap.WAFURL
     = Some script_payload
  /\ Bootstrap.sha256_hexdigest honest_mirror script_payload
     = Bootstrap.SHA256HASH
  /\ (Bootstrap.run honest_mirror
        (Bootstrap.w_fs (Bootstrap.run honest_mirror ∅).2)).1
     = Bootstrap.SysExit 0.
Proof.
  assert (H1 : In (Bootstrap.EvHttpGet Bootstrap.WAFURL)
                 (Bootstrap.w_log (Bootstrap.run honest_mirror ∅).2))
    by (vm_compute; auto 10).
  assert (H2 : Bootstrap.urlopen_read honest_mirror Bootstrap.WAFURL
               = Some script_payload) by reflexivity.
  assert (H3 : Bootstrap.sha256_hexdigest honest_mirror script_payload
               = Bootstrap.SHA256HASH) by (vm_compute; reflexivity).
  split; [exact H1|]. split; [exact H2|]. split; [exact H3|].
  exact (proj1 (second_run_skips honest_mirror ∅ script_payload _
                  H1 H2 H3 honest_install_runs eq_refl)).
Defined.

(** X10 on the Debian host, where [-lpthread] links. *)
Lemma pthreads_plain_link_suffices_witness :
  In "pthread" ["pthreadGC2"; "pthread"]
  /\ Custom.compiles debian
       (Custom.pthreads_request debian (None, "pthread")) = true
  /\ (Custom.check_pthreads debian "pthreads" (some_state "sunos" None)).1
     = true.
Proof.
  assert (H1 : In "pthread" ["pthreadGC2"; "pthread"]) by (cbn; auto).
  assert (H2 : Custom.compiles debian
                 (Custom.pthreads_request debian (None, "pthread")) = true)
    by reflexivity.
  split; [exact H1|]. split; [exact H2|].
  exact (pthreads_plain_link_suffices debian "pthreads"
           (some_state "sunos" None) "pthread" H1 H2).
Defined.

(** X11 in a context with no dynamic-loading library. *)
Lemma iconv_without_libdl_witness :
  Custom.env_LIB_LIBDL (Custom.st_ctx bare_state) = []
  /\ (Custom.check_iconv debian "iconv" bare_state).1
     = Custom.compiles debian
         (Custom.fragment_request (Custom.load_fragment debian "iconv.c")
            None "iconv").
Proof.
  split; [reflexivity|].
  exact (proj1 (iconv_without_libdl debian "iconv" bare_state eq_refl)).
Defined.

Lemma debian_lua_compile_logged (s : Custom.state) :
  s = some_state "linux" None \/ s = bare_state ->
  In (Custom.EvCompile (Custom.lua_request debian s "52deb"))
     (Custom.st_log (Custom.check_lua debian "lua" s).2).
Proof. intros [-> | ->]; vm_compute; auto 10. Qed.

(** X12 on the Debian host: the compile for Debian's 5.2. *)
Lemma lua_compiles_only_resolved_witness :
  In (Custom.EvCompile
        (Custom.lua_request debian (some_state "linux" None) "52deb"))
     (Custom.st_log
        (Custom.check_lua debian "lua" (some_state "linux" None)).2)
  /\ (In (Custom.EvCompile
            (Custom.lua_request debian (some_state "linux" None) "52deb"))
         (Custom.st_log (some_state "linux" None))
      \/ exists tag q,
           In (tag, q) Custom.lua_versions
           /\ Custom.pkg_resolves debian q = true
           /\ In (Custom.EvPkgConfig q tag)
                (Custom.st_log
                   (Custom.check_lua debian "lua"
                      (some_state "linux" None)).2)
           /\ head (Custom.use
                      (Custom.lua_request debian (some_state "linux" None)
                         "52deb")) = Some tag
           /\ Custom.execute
                (Custom.lua_request debian (some_state "linux" None)
                   "52deb") = true).
Proof.
  pose proof (debian_lua_compile_logged _ (or_introl eq_refl)) as H1.
  split; [exact H1|].
  exact (lua_compiles_only_resolved debian "lua" (some_state "linux" None)
           _ H1).
Defined.

(** X13 in a context where both quvi variants are satisfied. *)
Lemma lua_links_one_companion_witness :
  In (Custom.EvCompile (Custom.lua_request debian bare_state "52deb"))
     (Custom.st_log (Custom.check_lua debian "lua" bare_state).2)
  /\ (In (Custom.EvCompile (Custom.lua_request debian bare_state "52deb"))
         (Custom.st_log bare_state)
      \/ tail (Custom.use (Custom.lua_request debian bare_state "52deb"))
         = if bool_decide
                ("libquvi4"
                   ∈ Custom.satisfied_deps (Custom.st_ctx bare_state))
           then ["libquvi4"]
           else if bool_decide
                     ("libquvi9"
                        ∈ Custom.satisfied_deps (Custom.st_ctx bare_state))
                then ["libquvi9"] else []).
Proof.
  pose proof (debian_lua_compile_logged _ (or_intror eq_refl)) as H1.
  split; [exact H1|].
  exact (lua_links_one_companion debian "lua" bare_state _ H1).
Defined.

(** X14 with the option set to Debian's 5.1. *)
Lemma lua_option_selects_one_witness :
  Custom.options_LUA_VER (Custom.st_ctx (some_state "linux" (Some "51deb")))
    = Some "51deb"
  /\ "51deb" <> ""
  /\ exists new,
       Custom.st_log
         (Custom.check_lua debian "lua"
            (some_state "linux" (Some "51deb"))).2
       = (Custom.st_log (some_state "linux" (Some "51deb")) ++ new)%list
       /\ length new <= 2
       /\ Forall (fun e => Custom.event_tag e = Some "51deb") new.
Proof.
  assert (H2 : "51deb" <> "") by discriminate.
  split; [reflexivity|]. split; [exact H2|].
  exact (lua_option_selects_one debian "lua"
           (some_state "linux" (Some "51deb")) "51deb" eq_refl H2).
Defined.

Lemma debian_cc_keeps_satisfied rq d b c :
  Custom.satisfied_deps (Custom.cc_record debian rq d b c)
  = Custom.satisfied_deps c.
Proof. reflexivity. Qed.

Lemma debian_pkg_keeps_satisfied (q t d : string) (b : bool) c :
  Custom.satisfied_deps (Custom.pkg_record debian q t d b c)
  = Custom.satisfied_deps c.
Proof. reflexivity. Qed.

(** X15 on the Debian host, whose recording keeps to the defines. *)
Lemma lua_marks_only_winner_witness :
  (forall rq d b c,
     Custom.satisfied_deps (Custom.cc_record debian rq d b c)
     = Custom.satisfied_deps c)
  /\ (forall q t d b c,
        Custom.satisfied_deps (Custom.pkg_record debian q t d b c)
        = Custom.satisfied_deps c)
  /\ elements
       (Custom.satisfied_deps
          (Custom.st_ctx
             (Custom.check_lua debian "lua" (some_state "linux" None)).2))
     = elements ({[ "52deb" ]} ∪ ({[ "libdl" ]} : gset string)).
Proof.
  split; [exact debian_cc_keeps_satisfied|].
  split; [exact debian_pkg_keeps_satisfied|].
  rewrite (lua_marks_only_winner debian "lua" (some_state "linux" None)
             debian_cc_keeps_satisfied debian_pkg_keeps_satisfied).
  vm_compute. reflexivity.
Defined.

(** X16 on the host with OSS under [/usr/lib/oss]. *)
Lemma oss_probe_under_libdir_witness :
  Custom.get_osslibdir debian_oss <> ""
  /\ exists rq,
       Custom.st_log
         (Custom.check_oss_4front debian_oss "oss-audio"
            (some_state "linux" None)).2
       = (Custom.st_log (some_state "linux" None)
          ++ [Custom.EvCompile rq])%list
       /\ (Custom.check_oss_4front debian_oss "oss-audio"
             (some_state "linux" None)).1 = Custom.compiles debian_oss rq
       /\ Custom.header_name rq
          = (Custom.path_join (Custom.get_osslibdir debian_oss) "include"
             ++ "/sys/soundcard.h")%string
       /\ Custom.cflags rq
          = Some ("-I" ++ Custom.path_join (Custom.get_osslibdir debian_oss)
                            "include")%string
       /\ Custom.st_ctx
            (Custom.check_oss_4front debian_oss "oss-audio"
               (some_state "linux" None)).2
          = Custom.cc_record debian_oss rq "oss-audio"
              (Custom.compiles debian_oss rq)
              (Custom.st_ctx (some_state "linux" None)).
Proof.
  assert (H1 : Custom.get_osslibdir debian_oss <> "")
    by (vm_compute; discriminate).
  split; [exact H1|].
  exact (oss_probe_under_libdir debian_oss "oss-audio"
           (some_state "linux" None) H1).
Defined.

(** X18 for the Cocoa probe, started after a pkg-config query of
    another probe. *)
Lemma only_lua_queries_pkg_config_witness :
  In (Custom.check_cocoa debian)
     [Custom.check_pthreads debian; Custom.check_iconv debian;
      Custom.check_oss_4front debian; Custom.check_cocoa debian]
  /\ In (Custom.EvPkgConfig "lua >= 5.2.0" "52")
        (Custom.st_log
           (Custom.check_cocoa debian "cocoa"
              (Custom.State (some_ctx "darwin" None)
                 [Custom.EvPkgConfig "lua >= 5.2.0" "52"])).2)
  /\ In (Custom.EvPkgConfig "lua >= 5.2.0" "52")
        [Custom.EvPkgConfig "lua >= 5.2.0" "52"].
Proof.
  assert (H1 : In (Custom.check_cocoa debian)
                 [Custom.check_pthreads debian; Custom.check_iconv debian;
                  Custom.check_oss_4front debian; Custom.check_cocoa debian])
    by (cbn [In]; auto 10).
  assert (H2 : In (Custom.EvPkgConfig "lua >= 5.2.0" "52")
                 (Custom.st_log
                    (Custom.check_cocoa debian "cocoa"
                       (Custom.State (some_ctx "darwin" None)
                          [Custom.EvPkgConfig "lua >= 5.2.0" "52"])).2))
    by (left; reflexivity).
  split; [exact H1|]. split; [exact H2|].
  exact (only_lua_queries_pkg_config debian (Custom.check_cocoa debian)
           "cocoa"
           (Custom.State (some_ctx "darwin" None)
              [Custom.EvPkgConfig "lua >= 5.2.0" "52"])
           "lua >= 5.2.0" "52" H1 H2).
Defined.

End GuaranteeWitnesses.
